(** * Mental-Health-Chatbot: sentiment fusion, crisis escalation, mood tracking

    A shallow embedding of the decision core of the chatbot:
    - [src/sentiment/analyzer.py]      (module [analyzer]),
    - [src/hf_config.py], [src/chatbot/crisis_handler.py]
                                       (modules [hf_config], [crisis_handler]),
    - [src/chatbot/session_manager.py] (module [session_manager]),
    - [src/database/user_manager.py]   (module [user_manager]),
    - [src/hybrid_chatbot.py]          (module [hybrid_chatbot]).

    The embedding comes first, then the definitions the statements are
    phrased with, then the properties.

    Python floats are read as exact rationals ([Q]); every threshold of the
    source is the rational its decimal literal denotes. *)

From Stdlib Require Import QArith Qabs Qminmax Lqa ZArith NArith Ascii String List Bool Lia.
From stdpp Require Import base option list gmap strings.

Local Open Scope Q_scope.

(** ** Python strings and values *)

Module PyStr.

(** A Python [str] is a sequence of Unicode code points. *)
Definition codepoint : Type := N.
Definition str : Type := list codepoint.

(** String literals of the source (all of them ASCII). *)
Definition lit (s : string) : str := map N_of_ascii (list_ascii_of_string s).

(** [p in t] for two strings: substring containment. *)
Fixpoint starts_with (p t : str) : bool :=
  match p, t with
  | [], _ => true
  | _ :: _, [] => false
  | c :: p', d :: t' => N.eqb c d && starts_with p' t'
  end.

Fixpoint contains (p t : str) : bool :=
  starts_with p t ||
  match t with
  | [] => false
  | _ :: t' => contains p t'
  end.

(** The parts of the Python runtime the source calls and does not define:
    [str.lower], [str.strip], and the Unicode word class of [re] outside
    ASCII. *)
Class PyRuntime : Type := {
  str_lower : str -> str;
  str_strip : str -> str;
  unicode_alnum : codepoint -> bool
}.

(** [\w] of [re] on [str] patterns: [[a-zA-Z0-9_]] plus the Unicode
    alphanumerics. *)
Definition ascii_word (c : codepoint) : bool :=
  ((48 <=? c) && (c <=? 57) || (65 <=? c) && (c <=? 90) ||
   (97 <=? c) && (c <=? 122) || (c =? 95))%N.

Definition is_word_char `{PyRuntime} (c : codepoint) : bool :=
  if (c <? 128)%N then ascii_word c else unicode_alnum c.

Definition is_word `{PyRuntime} (o : option codepoint) : bool :=
  match o with
  | Some c => is_word_char c
  | None => false
  end.

(** [\b]: the empty string between a [\w] and a [\W] character, the two ends
    of the text counting as [\W]. *)
Definition word_boundary `{PyRuntime} (before after : option codepoint) : bool :=
  xorb (is_word before) (is_word after).

(** [re.search(r'\b' + re.escape(kw) + r'\b', text)] finds a match; [prev] is
    the character before the current position. *)
Fixpoint search_bounded_from `{PyRuntime} (prev : option codepoint) (kw t : str)
  : bool :=
  (word_boundary prev (head t) && starts_with kw t &&
   word_boundary (last (option_list prev ++ kw)) (t !! length kw)) ||
  match t with
  | [] => false
  | c :: t' => search_bounded_from (Some c) kw t'
  end.

Definition re_search_word_bounded `{PyRuntime} (kw text : str) : bool :=
  search_bounded_from None kw text.

(** A runtime for ASCII text, on which it agrees with CPython: letters A-Z are
    lowered, ASCII white space is stripped, no code point above 127 is used. *)
Definition ascii_lower_char (c : codepoint) : codepoint :=
  if ((65 <=? c) && (c <=? 90))%N then (c + 32)%N else c.

Definition ascii_space (c : codepoint) : bool :=
  ((9 <=? c) && (c <=? 13) || (28 <=? c) && (c <=? 32))%N.

Fixpoint lstrip (s : str) : str :=
  match s with
  | [] => []
  | c :: s' => if ascii_space c then lstrip s' else s
  end.

Definition ascii_strip (s : str) : str := rev (lstrip (rev (lstrip s))).

Definition ascii_runtime : PyRuntime := {|
  str_lower := map ascii_lower_char;
  str_strip := ascii_strip;
  unicode_alnum := fun _ => false
|}.

(** Python values, as far as the dynamic checks of the source tell them apart;
    [PyObject] is any other object, with its truth value. *)
Inductive pyval : Type :=
| PyNone
| PyBool (b : bool)
| PyInt (n : Z)
| PyFloat (x : Q)
| PyStr (s : str)
| PyObject (truth : bool).

(** Truth value testing ([not v] is its negation). *)
Definition truthy (v : pyval) : bool :=
  match v with
  | PyNone => false
  | PyBool b => b
  | PyInt n => negb (n =? 0)%Z
  | PyFloat x => negb (Qeq_bool x 0)
  | PyStr s => negb (bool_decide (s = []))
  | PyObject truth => truth
  end.

Definition isinstance_str (v : pyval) : bool :=
  match v with
  | PyStr _ => true
  | _ => false
  end.

(** Comparisons and the two-argument [min] and [max] builtins on numbers:
    [min(a, b)] is [b] when [b < a] and [a] otherwise, [max(a, b)] is [b] when
    [b > a] and [a] otherwise. *)
Definition Qlt_bool (x y : Q) : bool := negb (Qle_bool y x).

Definition py_min (a b : Q) : Q := if Qlt_bool b a then b else a.
Definition py_max (a b : Q) : Q := if Qlt_bool a b then b else a.

End PyStr.
Export PyStr.

(** ** src/sentiment/analyzer.py *)

Module analyzer.

Inductive EmotionCategory : Type :=
| VERY_NEGATIVE
| NEGATIVE
| SLIGHTLY_NEGATIVE
| NEUTRAL
| SLIGHTLY_POSITIVE
| POSITIVE
| VERY_POSITIVE.

Definition EmotionCategory_value (c : EmotionCategory) : string :=
  match c with
  | VERY_NEGATIVE => "very_negative"
  | NEGATIVE => "negative"
  | SLIGHTLY_NEGATIVE => "slightly_negative"
  | NEUTRAL => "neutral"
  | SLIGHTLY_POSITIVE => "slightly_positive"
  | POSITIVE => "positive"
  | VERY_POSITIVE => "very_positive"
  end.

Inductive CrisisSeverity : Type :=
| CRITICAL
| HIGH
| MODERATE
| NONE.

Definition CrisisSeverity_value (c : CrisisSeverity) : string :=
  match c with
  | CRITICAL => "critical"
  | HIGH => "high"
  | MODERATE => "moderate"
  | NONE => "none"
  end.

(** [class MentalHealthKeywords] *)
Definition CRISIS_PHRASES : list str := map lit [
  "i want to hurt myself";
  "i want to die";
  "i'm suicidal";
  "i am suicidal";
  "suicidal thoughts";
  "suicide";
  "kill myself";
  "end my life";
  "no point living";
  "life not worth living";
  "better off dead";
  "don't want to live";
  "wish i was dead"
]%string.

Definition SELF_HARM_KEYWORDS : list str := map lit [
  "cutting myself";
  "self-harm";
  "self harm";
  "overdose";
  "hanging";
  "jumping off";
  "drowning";
  "slitting wrists";
  "razor blade";
  "cutting";
  "harming myself";
  "hurt myself"
]%string.

Definition STRESS_KEYWORDS : list str := map lit [
  "stressed"; "anxious"; "anxiety"; "worried"; "nervous";
  "overwhelmed"; "panic"; "panicking"; "afraid"; "scared"; "tension";
  "tense"; "uneasy"; "agitated"; "frantic"
]%string.

Definition DEPRESSION_KEYWORDS : list str := map lit [
  "depressed"; "depression"; "sad"; "sadness"; "unhappy";
  "hopeless"; "hopelessness"; "worthless"; "empty"; "meaningless"; "lost";
  "gloomy"; "melancholy"; "miserable"; "down"; "low"
]%string.

Definition POSITIVE_KEYWORDS : list str := map lit [
  "happy"; "joyful"; "good"; "great"; "wonderful"; "amazing";
  "grateful"; "blessed"; "hopeful"; "confident"; "peaceful";
  "excited"; "proud"; "loved"; "supported"
]%string.

(** What a call of the analyzer does besides returning: the warnings it logs
    and the calls it makes to the two polarity scorers. *)
Inductive event : Type :=
| WarnInvalidInput
| WarnCrisisIndicator (phrase text : str)
| WarnSelfHarmIndicator (keyword text : str)
| CallVader (text : str)
| CallTextBlob (text : str).

(** A writer monad over the events. *)
Definition W (A : Type) : Type := A * list event.
Definition emit (e : event) : W unit := (tt, [e]).

#[export] Instance W_ret : MRet W := fun A a => (a, []).
#[export] Instance W_bind : MBind W := fun A B k m =>
  let '(a, l1) := m in let '(b, l2) := k a in (b, l1 ++ l2).

(** The two polarity scorers the analyzer wraps: VADER's
    [SentimentIntensityAnalyzer.polarity_scores] and TextBlob's
    [sentiment.polarity]. *)
Class Scorers : Type := {
  vader_polarity_scores : str -> gmap string Q;
  TextBlob_polarity : str -> Q
}.

Definition call_vader `{Scorers} (text : str) : W (gmap string Q) :=
  emit (CallVader text) ;; mret (vader_polarity_scores text).

Definition call_textblob `{Scorers} (text : str) : W Q :=
  emit (CallTextBlob text) ;; mret (TextBlob_polarity text).

Record MentalState : Type := {
  stress_indicators : bool;
  depression_indicators : bool;
  positive_indicators : bool;
  self_harm_indicators : bool
}.

Record SentimentResult : Type := {
  raw_text : str;
  text_normalized : str;
  vader_scores : gmap string Q;
  textblob_polarity : Q;
  combined_sentiment_score : Q;
  emotion_category : string;
  emotion_intensity : Q;
  mental_state_detected : MentalState;
  crisis_detected : bool;
  crisis_severity : string;
  analysis_timestamp : str
}.

Definition _detect_crisis_indicators (text : str) : W (bool * CrisisSeverity) :=
  if bool_decide (text = []) then mret (false, NONE)
  else
    match find (fun phrase => contains phrase text) CRISIS_PHRASES with
    | Some phrase =>
        emit (WarnCrisisIndicator phrase text) ;; mret (true, CRITICAL)
    | None =>
        match find (fun keyword => contains keyword text) SELF_HARM_KEYWORDS with
        | Some keyword =>
            emit (WarnSelfHarmIndicator keyword text) ;; mret (true, CRITICAL)
        | None => mret (false, NONE)
        end
    end.

(** The local helper of [_detect_mental_state]. *)
Definition has_keyword `{PyRuntime} (text : str) (keywords : list str) : bool :=
  existsb (fun kw => re_search_word_bounded kw text) keywords.

Definition _detect_mental_state `{PyRuntime} (text : str) : MentalState := {|
  stress_indicators := has_keyword text STRESS_KEYWORDS;
  depression_indicators := has_keyword text DEPRESSION_KEYWORDS;
  positive_indicators := has_keyword text POSITIVE_KEYWORDS;
  self_harm_indicators := existsb (fun kw => contains kw text) SELF_HARM_KEYWORDS
|}.

Definition _combine_sentiment_scores (vader_scores : gmap string Q)
    (textblob_polarity : Q) : Q :=
  let vader_compound := default 0 (vader_scores !! "compound"%string) in
  let textblob_score := textblob_polarity in
  let combined := (vader_compound * 0.6) + (textblob_score * 0.4) in
  py_max (-1.0) (py_min 1.0 combined).

Definition _categorize_emotion (sentiment_score : Q) : EmotionCategory :=
  if Qle_bool sentiment_score (-0.75) then VERY_NEGATIVE
  else if Qle_bool sentiment_score (-0.25) then NEGATIVE
  else if Qle_bool sentiment_score (-0.05) then SLIGHTLY_NEGATIVE
  else if Qle_bool sentiment_score 0.05 then NEUTRAL
  else if Qle_bool sentiment_score 0.25 then SLIGHTLY_POSITIVE
  else if Qle_bool sentiment_score 0.75 then POSITIVE
  else VERY_POSITIVE.

Definition _get_emotion_intensity (sentiment_score : Q) : Q :=
  Qabs sentiment_score.

(** [now] is the reading of the clock by [_get_timestamp]. *)
Definition _get_default_sentiment (now : str) : SentimentResult := {|
  raw_text := [];
  text_normalized := [];
  vader_scores :=
    list_to_map [("compound", 0); ("pos", 0); ("neu", 1); ("neg", 0)]%string;
  textblob_polarity := 0;
  combined_sentiment_score := 0;
  emotion_category := EmotionCategory_value NEUTRAL;
  emotion_intensity := 0;
  mental_state_detected := {|
    stress_indicators := false;
    depression_indicators := false;
    positive_indicators := false;
    self_harm_indicators := false
  |};
  crisis_detected := false;
  crisis_severity := CrisisSeverity_value NONE;
  analysis_timestamp := now
|}.

Definition analyze_sentiment `{PyRuntime} `{Scorers} (now : str) (text : pyval)
  : W SentimentResult :=
  if negb (truthy text) || negb (isinstance_str text) then
    emit WarnInvalidInput ;; mret (_get_default_sentiment now)
  else
    match text with
    | PyStr text =>
        let text_lower := str_strip (str_lower text) in
        '(crisis_detected, crisis_severity) ← _detect_crisis_indicators text_lower;
        vader_scores ← call_vader text;
        textblob_polarity ← call_textblob text;
        let combined_score :=
          _combine_sentiment_scores vader_scores textblob_polarity in
        let mental_state := _detect_mental_state text_lower in
        let emotion_category := _categorize_emotion combined_score in
        mret {|
          raw_text := text;
          text_normalized := text_lower;
          vader_scores := vader_scores;
          textblob_polarity := textblob_polarity;
          combined_sentiment_score := combined_score;
          emotion_category := EmotionCategory_value emotion_category;
          emotion_intensity := _get_emotion_intensity combined_score;
          mental_state_detected := mental_state;
          crisis_detected := crisis_detected;
          crisis_severity := CrisisSeverity_value crisis_severity;
          analysis_timestamp := now
        |}
    | _ => emit WarnInvalidInput ;; mret (_get_default_sentiment now)
    end.

End analyzer.

(** ** src/hf_config.py *)

Module hf_config.

Definition CRISIS_KEYWORDS : list str := map lit [
  "kill myself"; "suicide"; "want to die"; "no point living";
  "end it all"; "hurt myself"; "self harm"; "overdose";
  "jump"; "harm"; "death"; "dying"; "dead"
]%string.

End hf_config.

(** ** src/chatbot/crisis_handler.py *)

Module crisis_handler.

(** [self.crisis_keywords] is either a list of keywords or a dict from keyword
    to weight ([isinstance(self.crisis_keywords, dict)] tells which); a dict
    keeps its items in insertion order. *)
Inductive keyword_table : Type :=
| KwList (keywords : list str)
| KwDict (items : list (str * Q)).

Record CrisisHandler : Type := {
  crisis_threshold : Q;
  crisis_keywords : keyword_table
}.

(** [CrisisHandler.__init__] *)
Definition CrisisHandler_init : CrisisHandler := {|
  crisis_threshold := 0.80;
  crisis_keywords := KwList hf_config.CRISIS_KEYWORDS
|}.

Definition detect_crisis `{PyRuntime} (self : CrisisHandler) (text : str)
    (sentiment_score : Q) : bool * Q * list (str * Q) :=
  let text_lower := str_lower text in
  let '(found_keywords, max_severity) :=
    match crisis_keywords self with
    | KwDict items =>
        fold_left
          (fun '(found_keywords, max_severity) '(keyword, severity) =>
             if contains keyword text_lower
             then (found_keywords ++ [(keyword, severity)],
                   py_max max_severity severity)
             else (found_keywords, max_severity))
          items ([], 0)
    | KwList keywords =>
        fold_left
          (fun '(found_keywords, max_severity) keyword =>
             if contains keyword text_lower
             then (found_keywords ++ [(keyword, 0.9)], 0.9)
             else (found_keywords, max_severity))
          keywords ([], 0)
    end in
  let max_severity :=
    if Qlt_bool sentiment_score (-0.7) && negb (bool_decide (found_keywords = []))
    then py_min 1.0 (max_severity + 0.1)
    else max_severity in
  let is_crisis := Qle_bool (crisis_threshold self) max_severity in
  (is_crisis, max_severity, found_keywords).

(** [format_crisis_response] fills one fixed template (the hotline numbers and
    instructions) with an indicator and an urgency line chosen by the
    severity; the model keeps that choice. *)
Inductive urgency : Type :=
| IMMEDIATE_SUPPORT_NEEDED
| URGENT_SUPPORT_RECOMMENDED
| SUPPORT_AVAILABLE.

Definition format_crisis_response (severity_level : Q)
    (keywords_found : list (str * Q)) : urgency :=
  if Qle_bool 0.90 severity_level then IMMEDIATE_SUPPORT_NEEDED
  else if Qle_bool 0.85 severity_level then URGENT_SUPPORT_RECOMMENDED
  else SUPPORT_AVAILABLE.

(** What the chatbot answers: the crisis template at some urgency, or text of
    the generative model. *)
Inductive response : Type :=
| CrisisResponse (u : urgency)
| GeneratedResponse (s : str).

Definition get_crisis_response `{PyRuntime} (self : CrisisHandler) (text : str)
    (sentiment_score : Q) : bool * option response :=
  let '(is_crisis, severity, keywords) := detect_crisis self text sentiment_score in
  if is_crisis then
    let formatted_response := format_crisis_response severity keywords in
    (true, Some (CrisisResponse formatted_response))
  else (false, None).

End crisis_handler.

(** ** src/chatbot/session_manager.py *)

Module session_manager.

(** The dict handed to [record_mood], read with [.get]: a key that is missing
    (or holds [None]) reads as [None]. *)
Record mood_data : Type := {
  emotion_category : option string;
  combined_sentiment_score : option Q;
  crisis_detected : option bool;
  mental_state_detected : option analyzer.MentalState
}.

Record mood_entry : Type := {
  timestamp : str;
  entry_emotion_category : option string;
  sentiment_score : option Q;
  entry_crisis_detected : option bool;
  mental_state : option analyzer.MentalState
}.

Record message : Type := {
  role : str;
  content : str;
  message_timestamp : str
}.

Record UserSession : Type := {
  session_id : str;
  user_id : str;
  created_at : str;
  updated_at : str;
  conversation_history : list message;
  mood_log : list mood_entry;
  initial_mood : option mood_entry;
  current_mood : option mood_entry;
  session_active : bool
}.

(** [UserSession.__init__]; [now] is the reading of the clock. *)
Definition UserSession_init (session_id user_id now : str) : UserSession := {|
  session_id := session_id;
  user_id := user_id;
  created_at := now;
  updated_at := now;
  conversation_history := [];
  mood_log := [];
  initial_mood := None;
  current_mood := None;
  session_active := true
|}.

Definition add_message (self : UserSession) (role content now : str)
  : UserSession := {|
  session_id := session_id self;
  user_id := user_id self;
  created_at := created_at self;
  updated_at := now;
  conversation_history :=
    conversation_history self ++
    [{| role := role; content := content; message_timestamp := now |}];
  mood_log := mood_log self;
  initial_mood := initial_mood self;
  current_mood := current_mood self;
  session_active := session_active self
|}.

Definition record_mood (self : UserSession) (now : str) (data : mood_data)
  : UserSession :=
  let mood_entry := {|
    timestamp := now;
    entry_emotion_category := emotion_category data;
    sentiment_score := combined_sentiment_score data;
    entry_crisis_detected := crisis_detected data;
    mental_state := mental_state_detected data
  |} in
  {|
    session_id := session_id self;
    user_id := user_id self;
    created_at := created_at self;
    updated_at := updated_at self;
    conversation_history := conversation_history self;
    mood_log := mood_log self ++ [mood_entry];
    initial_mood :=
      match initial_mood self with
      | None => Some mood_entry
      | Some m => Some m
      end;
    current_mood := Some mood_entry;
    session_active := session_active self
  |}.

(** The two shapes of dict [get_mood_change] returns. *)
Inductive mood_change : Type :=
| NoMood (change : Z) (improved : bool)
| MoodChange (initial_mood current_mood : option string) (sentiment_change : Q)
    (improved : bool) (messages_count : nat).

(** A call either returns or raises. *)
Inductive outcome (A : Type) : Type :=
| Return (a : A)
| RaiseTypeError.
Arguments Return {A} a.
Arguments RaiseTypeError {A}.

(** A mood entry is a dict with five keys, hence true; [None - x] and
    [x - None] raise [TypeError]. *)
Definition get_mood_change (self : UserSession) : outcome mood_change :=
  match initial_mood self, current_mood self with
  | Some initial, Some current =>
      match sentiment_score current, sentiment_score initial with
      | Some current_score, Some initial_score =>
          let change := current_score - initial_score in
          Return (MoodChange (entry_emotion_category initial)
                    (entry_emotion_category current) change
                    (Qlt_bool 0 change)
                    (length (conversation_history self)))
      | _, _ => RaiseTypeError
      end
  | _, _ => Return (NoMood 0 false)
  end.

End session_manager.

(** ** src/emotion_classifier.py and the generative model *)

Module emotion_classifier.

Record EmotionResult : Type := {
  primary_emotion : str;
  confidence : Q;
  all_emotions : list (str * Q);
  is_crisis : bool
}.

(** The pretrained classifier behind [EmotionClassifier.classify_emotion] and
    the generative model behind [T5ResponseGenerator.generate_response] (called
    with the message, the emotion and the topic). *)
Class Models : Type := {
  classify_emotion : str -> EmotionResult;
  generate_response : str -> str -> str -> str
}.

End emotion_classifier.

(** ** src/database/user_manager.py *)

Module user_manager.

Record user_row : Type := {
  created_at : str;
  total_conversations : Z
}.

Record conversation_row : Type := {
  conv_user_id : str;
  user_message : str;
  bot_response : crisis_handler.response;
  conv_emotion : str;
  emotion_confidence : Q;
  conv_sentiment_score : Q;
  is_crisis : Z;
  conv_timestamp : str
}.

Record mood_tracking_row : Type := {
  mood_user_id : str;
  mood_emotion : str;
  mood_sentiment_score : Q;
  mood_timestamp : str
}.

(** Columns declared without [NOT NULL] hold [None] for SQL [NULL]. *)
Record chat_session_row : Type := {
  user_id : str;
  session_start : str;
  session_end : option str;
  initial_emotion : option str;
  initial_sentiment : option Q;
  final_emotion : option str;
  final_sentiment : option Q;
  mood_improvement : option Q;
  message_count : Z
}.

(** The four tables. [users] and [chat_sessions] are keyed by their primary
    key; [chat_sessions_seq] is the largest session id handed out so far
    ([AUTOINCREMENT]). The storage engine itself is taken not to fail. *)
Record database : Type := {
  users : gmap str user_row;
  conversations : list conversation_row;
  mood_tracking : list mood_tracking_row;
  chat_sessions : gmap Z chat_session_row;
  chat_sessions_seq : Z
}.

Definition empty_database : database := {|
  users := ∅;
  conversations := [];
  mood_tracking := [];
  chat_sessions := ∅;
  chat_sessions_seq := 0
|}.

Definition create_user (db : database) (now user_id : str) : database := {|
  users :=
    match users db !! user_id with
    | Some _ => users db
    | None =>
        <[user_id := {| created_at := now; total_conversations := 0 |}]> (users db)
    end;
  conversations := conversations db;
  mood_tracking := mood_tracking db;
  chat_sessions := chat_sessions db;
  chat_sessions_seq := chat_sessions_seq db
|}.

Definition save_conversation (db : database) (now_user now : str)
    (user_id user_message : str) (bot_response : crisis_handler.response)
    (emotion_result : emotion_classifier.EmotionResult)
    (sentiment : analyzer.SentimentResult) : database * bool :=
  let db := create_user db now_user user_id in
  let is_crisis := if analyzer.crisis_detected sentiment then 1%Z else 0%Z in
  ({|
     users :=
       match users db !! user_id with
       | Some u =>
           <[user_id := {| created_at := created_at u;
                           total_conversations := total_conversations u + 1 |}]>
             (users db)
       | None => users db
       end;
     conversations :=
       conversations db ++
       [{| conv_user_id := user_id;
           user_message := user_message;
           bot_response := bot_response;
           conv_emotion := emotion_classifier.primary_emotion emotion_result;
           emotion_confidence := emotion_classifier.confidence emotion_result;
           conv_sentiment_score := analyzer.combined_sentiment_score sentiment;
           is_crisis := is_crisis;
           conv_timestamp := now |}];
     mood_tracking :=
       mood_tracking db ++
       [{| mood_user_id := user_id;
           mood_emotion := emotion_classifier.primary_emotion emotion_result;
           mood_sentiment_score := analyzer.combined_sentiment_score sentiment;
           mood_timestamp := now |}];
     chat_sessions := chat_sessions db;
     chat_sessions_seq := chat_sessions_seq db
   |}, true).

Definition start_chat_session (db : database) (now : str) (user_id : str)
    (initial_emotion : option str) (initial_sentiment : option Q)
  : database * option Z :=
  let session_id := (chat_sessions_seq db + 1)%Z in
  ({|
     users := users db;
     conversations := conversations db;
     mood_tracking := mood_tracking db;
     chat_sessions :=
       <[session_id := {|
           user_id := user_id;
           session_start := now;
           session_end := None;
           initial_emotion := initial_emotion;
           initial_sentiment := initial_sentiment;
           final_emotion := None;
           final_sentiment := None;
           mood_improvement := None;
           message_count := 0 |}]> (chat_sessions db);
     chat_sessions_seq := session_id
   |}, Some session_id).

Record session_end_result : Type := {
  improvement : Q;
  improved : bool;
  stable : bool;
  declined : bool
}.

(** A subtraction with [None] on either side raises [TypeError] before the
    [UPDATE]; the [except] clause turns it into [None]. *)
Definition end_chat_session (db : database) (now : str) (session_id : Z)
    (final_emotion : option str) (final_sentiment : option Q)
  : database * option session_end_result :=
  match chat_sessions db !! session_id with
  | Some row =>
      match final_sentiment, initial_sentiment row with
      | Some final, Some initial =>
          let mood_improvement := final - initial in
          ({|
             users := users db;
             conversations := conversations db;
             mood_tracking := mood_tracking db;
             chat_sessions :=
               <[session_id := {|
                   user_id := user_id row;
                   session_start := session_start row;
                   session_end := Some now;
                   initial_emotion := initial_emotion row;
                   initial_sentiment := initial_sentiment row;
                   final_emotion := final_emotion;
                   final_sentiment := Some final;
                   mood_improvement := Some mood_improvement;
                   message_count := message_count row |}]> (chat_sessions db);
             chat_sessions_seq := chat_sessions_seq db
           |},
           Some {|
             improvement := mood_improvement;
             improved := Qlt_bool 0.1 mood_improvement;
             stable := Qle_bool (-0.1) mood_improvement &&
                       Qle_bool mood_improvement 0.1;
             declined := Qlt_bool mood_improvement (-0.1)
           |})
      | _, _ => (db, None)
      end
  | None => (db, None)
  end.

End user_manager.

(** ** src/hybrid_chatbot.py *)

Module hybrid_chatbot.
Import analyzer.

Definition topic_keywords : list (string * list string) := [
  ("exam", ["exam"; "test"; "quiz"; "midterm"; "final"; "exam score"; "studied"]);
  ("job", ["job"; "work"; "interview"; "boss"; "colleague"; "promotion"; "fired";
           "resign"; "workplace"]);
  ("relationship", ["girlfriend"; "boyfriend"; "wife"; "husband"; "partner";
                    "spouse"; "dating"; "breakup"; "relationship"]);
  ("family", ["mom"; "dad"; "parent"; "mother"; "father"; "sibling"; "brother";
              "sister"; "family"]);
  ("health", ["sick"; "illness"; "disease"; "pain"; "hurt"; "doctor"; "hospital";
              "health"]);
  ("money", ["money"; "debt"; "financial"; "broke"; "bills"; "rent"; "mortgage"]);
  ("social", ["friends"; "friend"; "lonely"; "alone"; "social"; "people";
              "community"]);
  ("school", ["school"; "class"; "grade"; "teacher"; "homework"; "assignment"])
]%string.

Definition _extract_topic `{PyRuntime} (user_message : str) : str :=
  let message_lower := str_lower user_message in
  match find (fun '(topic, keywords) =>
                existsb (fun keyword => contains (lit keyword) message_lower)
                  keywords) topic_keywords with
  | Some (topic, _) => lit topic
  | None => lit "general"
  end.

Definition _match_emotion_precisely `{PyRuntime} (detected_emotion : str)
    (user_message : str) : str :=
  let message_lower := str_lower user_message in
  let has (w : string) := contains (lit w) message_lower in
  if has "anxious" || has "anxiety" then lit "anxiety"
  else if has "sad" || has "sadness" || has "depressed" then lit "sadness"
  else if has "angry" || has "frustrated" then lit "anger"
  else if has "scared" || has "afraid" || has "fear" then lit "fear"
  else if has "happy" || has "great" || has "excited" then lit "joy"
  else match detected_emotion with
       | [] => lit "neutral"
       | _ => detected_emotion
       end.

Record HybridMentalHealthChatbot : Type := {
  the_crisis_handler : crisis_handler.CrisisHandler;
  db : user_manager.database
}.

(** [HybridMentalHealthChatbot.__init__], on a database in state [db]. *)
Definition HybridMentalHealthChatbot_init (db : user_manager.database)
  : HybridMentalHealthChatbot := {|
  the_crisis_handler := crisis_handler.CrisisHandler_init;
  db := db
|}.

Record message_result : Type := {
  response : crisis_handler.response;
  emotion : str;
  result_emotion_confidence : Q;
  sentiment : SentimentResult;
  is_crisis : bool
}.

(** The three clock readings of a call are those of the sentiment analysis,
    of [create_user] and of [save_conversation]. [get_crisis_response] hands
    back a response whenever it answers [True], so [response = crisis_response]
    is read with the response it holds. *)
Definition process_user_message `{PyRuntime} `{Scorers}
    `{emotion_classifier.Models} (self : HybridMentalHealthChatbot)
    (now_analysis now_user now_turn : str) (user_id user_message : str)
  : W (HybridMentalHealthChatbot * message_result) :=
  let emotion_result := emotion_classifier.classify_emotion user_message in
  let detected_emotion := emotion_classifier.primary_emotion emotion_result in
  sentiment ← analyze_sentiment now_analysis (PyStr user_message);
  let sentiment_score := combined_sentiment_score sentiment in
  let topic := _extract_topic user_message in
  let precise_emotion := _match_emotion_precisely detected_emotion user_message in
  let '(is_crisis, crisis_response) :=
    crisis_handler.get_crisis_response (the_crisis_handler self) user_message
      sentiment_score in
  let response :=
    match is_crisis, crisis_response with
    | true, Some crisis_response => crisis_response
    | _, _ =>
        crisis_handler.GeneratedResponse
          (emotion_classifier.generate_response user_message precise_emotion topic)
    end in
  let '(db', _) :=
    user_manager.save_conversation (db self) now_user now_turn user_id
      user_message response emotion_result sentiment in
  mret ({| the_crisis_handler := the_crisis_handler self; db := db' |},
        {| response := response;
           emotion := precise_emotion;
           result_emotion_confidence := emotion_classifier.confidence emotion_result;
           sentiment := sentiment;
           is_crisis := is_crisis |}).

End hybrid_chatbot.


(** ** src/sentiment/analyzer.py: comparing two messages *)

Module SentimentAnalyzer.
Import analyzer.

Record comparison : Type := {
  pre_sentiment : SentimentResult;
  post_sentiment : SentimentResult;
  sentiment_change : Q;
  improved : bool;
  degraded : bool;
  stable : bool
}.

(** [now1] and [now2] are the clock readings of the two analyses. *)
Definition compare_sentiments `{PyRuntime} `{Scorers} (now1 now2 : str)
    (text1 text2 : pyval) : W comparison :=
  analysis1 ← analyze_sentiment now1 text1;
  analysis2 ← analyze_sentiment now2 text2;
  let sentiment_change :=
    combined_sentiment_score analysis2 - combined_sentiment_score analysis1 in
  mret {|
    pre_sentiment := analysis1;
    post_sentiment := analysis2;
    sentiment_change := sentiment_change;
    improved := Qlt_bool 0.1 sentiment_change;
    degraded := Qlt_bool sentiment_change (-0.1);
    stable := Qle_bool (-0.1) sentiment_change && Qle_bool sentiment_change 0.1
  |}.

End SentimentAnalyzer.

(** ** src/chatbot/session_manager.py: summaries and the session manager *)

Module SessionManager.
Import session_manager.

Record summary : Type := {
  summary_session_id : str;
  summary_user_id : str;
  summary_created_at : str;
  summary_updated_at : str;
  message_count : nat;
  mood_entries : nat;
  summary_session_active : bool;
  mood_change_of : mood_change
}.

(** [UserSession.get_summary]; it raises when [get_mood_change] does. *)
Definition get_summary (self : UserSession) : outcome summary :=
  match get_mood_change self with
  | Return change =>
      Return {|
        summary_session_id := session_id self;
        summary_user_id := user_id self;
        summary_created_at := created_at self;
        summary_updated_at := updated_at self;
        message_count := length (conversation_history self);
        mood_entries := length (mood_log self);
        summary_session_active := session_active self;
        mood_change_of := change
      |}
  | RaiseTypeError => RaiseTypeError
  end.

(** [UserSession.end_session] *)
Definition UserSession_end_session (self : UserSession) (now : str)
  : UserSession := {|
  session_id := session_id self;
  user_id := user_id self;
  created_at := created_at self;
  updated_at := now;
  conversation_history := conversation_history self;
  mood_log := mood_log self;
  initial_mood := initial_mood self;
  current_mood := current_mood self;
  session_active := false
|}.

(** A Python dict keyed by strings: the items in insertion order, every key
    at most once. Assigning to a key that is present keeps its place. *)
Definition pydict (V : Type) : Type := list (str * V).

Fixpoint dict_get {V} (d : pydict V) (k : str) : option V :=
  match d with
  | [] => None
  | (k', v) :: d' => if bool_decide (k' = k) then Some v else dict_get d' k
  end.

Fixpoint dict_set {V} (d : pydict V) (k : str) (v : V) : pydict V :=
  match d with
  | [] => [(k, v)]
  | (k', v') :: d' =>
      if bool_decide (k' = k) then (k, v) :: d' else (k', v') :: dict_set d' k v
  end.

Definition dict_del {V} (d : pydict V) (k : str) : pydict V :=
  List.filter (fun '(k', _) => negb (bool_decide (k' = k))) d.

(** [self.sessions] *)
Definition sessions_t : Type := pydict UserSession.

(** [SessionManager.__init__] *)
Definition SessionManager_init : sessions_t := [].

(** [create_session]: [uuid_session] and [uuid_user] are the two values
    [uuid.uuid4()] yields in [UserSession.__init__]; a [user_id] that is
    [None] or empty is replaced by [uuid_user]. *)
Definition create_session (sessions : sessions_t) (uuid_session uuid_user now : str)
    (user_id : option str) : sessions_t * UserSession :=
  let user_id :=
    match user_id with
    | Some (c :: u) => c :: u
    | _ => uuid_user
    end in
  let session := UserSession_init uuid_session user_id now in
  (dict_set sessions (session_id session) session, session).

Definition get_session (sessions : sessions_t) (session_id : str)
  : option UserSession :=
  dict_get sessions session_id.

(** [SessionManager.end_session]: the session object is changed in place. *)
Definition end_session (sessions : sessions_t) (now : str) (session_id : str)
  : sessions_t * bool :=
  match dict_get sessions session_id with
  | Some session =>
      (dict_set sessions session_id (UserSession_end_session session now), true)
  | None => (sessions, false)
  end.

(** The list comprehension of [get_all_sessions]: the summaries are built in
    the order of the dict, and the first one that raises ends the call. *)
Fixpoint get_all_sessions (sessions : sessions_t) : outcome (list summary) :=
  match sessions with
  | [] => Return []
  | (_, session) :: rest =>
      if session_active session then
        match get_summary session with
        | Return s =>
            match get_all_sessions rest with
            | Return l => Return (s :: l)
            | RaiseTypeError => RaiseTypeError
            end
        | RaiseTypeError => RaiseTypeError
        end
      else get_all_sessions rest
  end.

Definition delete_session (sessions : sessions_t) (session_id : str)
  : sessions_t * bool :=
  match dict_get sessions session_id with
  | Some _ => (dict_del sessions session_id, true)
  | None => (sessions, false)
  end.

(** The [datetime] operations [cleanup_old_sessions] uses on clock readings:
    the order [<] and [t - timedelta(hours=h)]. *)
Class Datetime : Type := {
  datetime_lt : str -> str -> bool;
  minus_hours : str -> Z -> str
}.

Definition cleanup_old_sessions `{Datetime} (sessions : sessions_t) (now : str)
    (max_age_hours : Z) : sessions_t :=
  let cutoff_time := minus_hours now max_age_hours in
  let to_delete :=
    map fst (List.filter (fun '(sid, session) =>
                            datetime_lt (updated_at session) cutoff_time)
               sessions) in
  fold_left (fun sessions sid => (delete_session sessions sid).1) to_delete
    sessions.

End SessionManager.

(** ** src/database/user_manager.py: the aggregate queries *)

Module UserManager_queries.
Import user_manager.

(** [SELECT COUNT( * ) FROM conversations WHERE user_id = ? AND is_crisis = 1] *)
Definition get_crisis_count (db : database) (uid : str) : Z :=
  Z.of_nat (length (List.filter
                      (fun c => bool_decide (conv_user_id c = uid) &&
                                (is_crisis c =? 1)%Z)
                      (conversations db))).

Definition Qsum (l : list Q) : Q := fold_right Qplus 0 l.

(** SQL [AVG] over the values that are not [NULL]; [None] is [NULL], the
    average of no value. *)
Definition sql_avg (l : list (option Q)) : option Q :=
  match omap id l with
  | [] => None
  | x :: xs => Some (Qsum (x :: xs) / inject_Z (Z.of_nat (length (x :: xs))))
  end.

(** A number or [None] followed by [or 0]. *)
Definition or_zero (x : option Q) : Q :=
  match x with
  | Some q => if Qeq_bool q 0 then 0 else q
  | None => 0
  end.


Record improvement_stats : Type := {
  total_sessions : Z;
  average_improvement : Q;
  sessions_improved : Z;
  sessions_declined : Z;
  improvement_rate : Q
}.

(** The rows of [chat_sessions] with [user_id = ?]. *)
Definition sessions_of (db : database) (uid : str) : list chat_session_row :=
  List.filter (fun row => bool_decide (user_id row = uid))
    (map snd (map_to_list (chat_sessions db))).

(** [CASE WHEN mood_improvement > 0.1 THEN 1 ELSE 0 END] and its mirror: a
    comparison with [NULL] is not true. *)
Definition case_improved (row : chat_session_row) : bool :=
  match mood_improvement row with
  | Some m => Qlt_bool 0.1 m
  | None => false
  end.

Definition case_declined (row : chat_session_row) : bool :=
  match mood_improvement row with
  | Some m => Qlt_bool m (-0.1)
  | None => false
  end.

(** [get_mood_improvement_stats]; the sums over no row are [NULL], read as 0
    by [or 0]. *)
Definition get_mood_improvement_stats (db : database) (uid : str)
  : improvement_stats :=
  let rows := sessions_of db uid in
  let total := Z.of_nat (length rows) in
  let improved := Z.of_nat (length (List.filter case_improved rows)) in
  {|
    total_sessions := total;
    average_improvement := or_zero (sql_avg (map mood_improvement rows));
    sessions_improved := improved;
    sessions_declined := Z.of_nat (length (List.filter case_declined rows));
    improvement_rate :=
      if (0 <? total)%Z then inject_Z improved / inject_Z total * 100 else 0
  |}.

End UserManager_queries.

(** ** src/emotion_classifier.py: [classify_emotion] *)

Module EmotionClassifier.
Import emotion_classifier.

Record prediction : Type := {
  label : str;
  score : Q
}.

(** [self.classifier] is [None] when the model failed to load; a call of the
    pipeline returns its predictions or raises ([None]). [round3] is
    [round(x, 3)]. *)
Class Pipeline : Type := {
  classifier : option (str -> option (list (list prediction)));
  round3 : Q -> Q
}.

Definition crisis_keywords : list str := map lit [
  "kill myself"; "suicide"; "want to die"; "no point living";
  "end it all"; "hurt myself"; "self harm"; "overdose";
  "jump"; "harm"
]%string.

Definition _default_emotion : EmotionResult := {|
  primary_emotion := lit "neutral";
  confidence := 0.0;
  all_emotions := [(lit "neutral", 1.0)];
  is_crisis := false
|}.

Definition classify_emotion `{PyRuntime} `{Pipeline} (text : str) : EmotionResult :=
  match classifier with
  | None => _default_emotion
  | Some run =>
      match run (take 512 text) with
      | None => _default_emotion
      | Some predictions =>
          match predictions with
          | [] => _default_emotion
          | [] :: _ => _default_emotion
          | (primary :: others) :: _ =>
              let top_emotions := primary :: others in
              let is_crisis :=
                existsb (fun keyword => contains keyword (str_lower text))
                  crisis_keywords in
              {| primary_emotion := label primary;
                 confidence := round3 (score primary);
                 all_emotions :=
                   map (fun emotion => (label emotion, round3 (score emotion)))
                     top_emotions;
                 is_crisis := is_crisis |}
          end
      end
  end.

End EmotionClassifier.

(** ** src/response_generation/t5_response_generator.py: [_remove_repetition] *)

Module T5ResponseGenerator.

(** [text.split('. ')]: [cur] holds, reversed, the piece being read; 46 and
    32 are the full stop and the space. *)
Fixpoint split_dot_space (cur : str) (text : str) : list str :=
  match text with
  | [] => [rev cur]
  | c :: rest =>
      match rest with
      | d :: rest' =>
          if ((c =? 46) && (d =? 32))%N
          then rev cur :: split_dot_space [] rest'
          else split_dot_space (c :: cur) rest
      | [] => [rev (c :: cur)]
      end
  end.

(** ['. '.join(pieces)] *)
Fixpoint join_dot_space (pieces : list str) : str :=
  match pieces with
  | [] => []
  | [p] => p
  | p :: ps => p ++ lit ". " ++ join_dot_space ps
  end.

(** The loop over the sentences: [unique_sentences] grows at its end; the set
    [seen] holds the same strings. *)
Definition keep_first_seen `{PyRuntime} (sentences : list str) : list str :=
  fold_left
    (fun unique_sentences sentence =>
       let sentence := str_strip sentence in
       if negb (bool_decide (sentence = [])) &&
          negb (bool_decide (sentence ∈ unique_sentences))
       then unique_sentences ++ [sentence]
       else unique_sentences)
    sentences [].

Definition _remove_repetition `{PyRuntime} (text : str) : str :=
  let sentences := split_dot_space [] text in
  let unique_sentences := keep_first_seen sentences in
  let result := join_dot_space unique_sentences in
  if negb (bool_decide (result = [])) &&
     negb (bool_decide (last result = Some 46%N))
  then result ++ lit "."
  else result.

End T5ResponseGenerator.
(** * Specification-side definitions *)

Import analyzer.

(** ** Emotion bins *)

(** The position of a category in the declaration of the enum. *)
Definition rank (c : EmotionCategory) : nat :=
  match c with
  | VERY_NEGATIVE => 0
  | NEGATIVE => 1
  | SLIGHTLY_NEGATIVE => 2
  | NEUTRAL => 3
  | SLIGHTLY_POSITIVE => 4
  | POSITIVE => 5
  | VERY_POSITIVE => 6
  end.

(** The bin of each category, as the specification draws them. *)
Definition in_bin (c : EmotionCategory) (s : Q) : Prop :=
  match c with
  | VERY_NEGATIVE => s <= -0.75
  | NEGATIVE => -0.75 < s /\ s <= -0.25
  | SLIGHTLY_NEGATIVE => -0.25 < s /\ s <= -0.05
  | NEUTRAL => -0.05 < s /\ s <= 0.05
  | SLIGHTLY_POSITIVE => 0.05 < s /\ s <= 0.25
  | POSITIVE => 0.25 < s /\ s <= 0.75
  | VERY_POSITIVE => 0.75 < s
  end.

(** A score inside [[-1, 1]] for each category. *)
Definition sample (c : EmotionCategory) : Q :=
  match c with
  | VERY_NEGATIVE => -0.9
  | NEGATIVE => -0.5
  | SLIGHTLY_NEGATIVE => -0.1
  | NEUTRAL => 0
  | SLIGHTLY_POSITIVE => 0.1
  | POSITIVE => 0.5
  | VERY_POSITIVE => 0.9
  end.


(** ** Clamping *)

(** [x] clamped to the interval [[lo, hi]]. *)
Definition clamp (lo hi x : Q) : Q :=
  if Qlt_le_dec x lo then lo else if Qlt_le_dec hi x then hi else x.

(** The compound score of a VADER result (score A), 0 when it has none. *)
Definition score_A (vader_scores : gmap string Q) : Q :=
  default 0 (vader_scores !! "compound"%string).

(** ** Stand-ins to run the code on concrete messages *)

(** Scorers that give every text the same polarities, a classifier that
    always answers "sadness" and a generator that echoes the message. *)
Definition example_scorers : Scorers := {|
  vader_polarity_scores := fun _ =>
    list_to_map [("compound", -0.5); ("pos", 0); ("neu", 0.5); ("neg", 0.5)]%string;
  TextBlob_polarity := fun _ => -0.25
|}.

Definition example_models : emotion_classifier.Models := {|
  emotion_classifier.classify_emotion := fun _ => {|
    emotion_classifier.primary_emotion := lit "sadness";
    emotion_classifier.confidence := 0.9;
    emotion_classifier.all_emotions := [(lit "sadness", 0.9)];
    emotion_classifier.is_crisis := false
  |};
  emotion_classifier.generate_response := fun user_input _ _ => user_input
|}.

(** ** The severity rule of the crisis decision *)

(** The configured keywords contained in the lowered text, each with the
    weight the list branch gives it. *)
Definition matched_keywords (text_lower : str) : list (str * Q) :=
  map (fun k => (k, 0.9))
    (List.filter (fun k => contains k text_lower) hf_config.CRISIS_KEYWORDS).

(** The largest weight among the matched keywords, 0 when there is none. *)
Definition max_weight (found : list (str * Q)) : Q :=
  match map snd found with
  | [] => 0
  | w :: ws => fold_left Qmax ws w
  end.

(** The rule of the specification: start from the largest matched weight; add
    0.1, capped at 1.0, when the score is below -0.7 and a keyword matched. *)
Definition severity_rule (found : list (str * Q)) (sentiment_score : Q) : Q :=
  let base := max_weight found in
  if Qlt_le_dec sentiment_score (-0.7) then
    match found with
    | [] => base
    | _ :: _ => Qmin 1 (base + 0.1)
    end
  else base.

(** ** Word-boundary matching *)

(** [kw] occurs in [text] as a token sequence of its own: the character before
    the occurrence, if any, is not a word character, and neither is the one
    after it. *)
Definition token_occurrence `{PyRuntime} (kw text : str) : Prop :=
  exists a b, text = a ++ kw ++ b /\
              is_word (last a) = false /\ is_word (head b) = false.

(** [kw] begins and ends with an ASCII word character. *)
Definition word_ended (kw : str) : bool :=
  match head kw, last kw with
  | Some c, Some d => ((c <? 128) && ascii_word c && (d <? 128) && ascii_word d)%N
  | _, _ => false
  end.

(** ** Sequences of [record_mood] calls *)

Module SM := session_manager.
Module UM := user_manager.

(** The snapshot [record_mood] builds from a call at time [now] with [data]. *)
Definition mood_entry_of (call : str * SM.mood_data) : SM.mood_entry := {|
  SM.timestamp := call.1;
  SM.entry_emotion_category := SM.emotion_category call.2;
  SM.sentiment_score := SM.combined_sentiment_score call.2;
  SM.entry_crisis_detected := SM.crisis_detected call.2;
  SM.mental_state := SM.mental_state_detected call.2
|}.


(** Mood data as [analyze_sentiment] yields them, reduced to category and
    score. *)
Definition example_mood (category : string) (score : Q) : SM.mood_data := {|
  SM.emotion_category := Some category;
  SM.combined_sentiment_score := Some score;
  SM.crisis_detected := Some false;
  SM.mental_state_detected := None
|}.

(** A database holding one open session, started with sentiment 0.2. *)
Definition example_database : UM.database :=
  (UM.start_chat_session UM.empty_database (lit "t0") (lit "u1")
     (Some (lit "sadness")) (Some 0.2)).1.

(** ** The two crisis checks seen from the orchestrator *)

Module HC := hybrid_chatbot.

(** The phrase and keyword check of the analyzer on a message, and the
    weighted decision of the crisis handler on the same message with the
    combined score of that analysis. *)
Definition analyzer_check `{PyRuntime} `{Scorers} (now user_message : str) : bool :=
  crisis_detected (analyze_sentiment now (PyStr user_message)).1.

Definition handler_check `{PyRuntime} `{Scorers}
    (self : HC.HybridMentalHealthChatbot) (now user_message : str) : bool :=
  (crisis_handler.detect_crisis (HC.the_crisis_handler self) user_message
     (combined_sentiment_score
        (analyze_sentiment now (PyStr user_message)).1)).1.1.

(** The orchestrator escalates when it answers with the crisis template. *)
Definition escalates (r : HC.message_result) : bool :=
  match HC.response r with
  | crisis_handler.CrisisResponse _ => true
  | crisis_handler.GeneratedResponse _ => false
  end.

(** ** A weighted keyword table *)


(** ** Events of the analyzer *)

(** The event is a call of one of the two polarity scorers. *)
Definition is_scorer_call (e : event) : bool :=
  match e with
  | CallVader _ | CallTextBlob _ => true
  | _ => false
  end.

(** The phrases and keywords of the analyzer's crisis check, in the order
    they are tried. *)
Definition crisis_vocabulary : list str := CRISIS_PHRASES ++ SELF_HARM_KEYWORDS.

(** ** Histories of a session *)

Module SMgr := SessionManager.

(** The calls that change a [UserSession]. *)
Inductive session_op : Type :=
| OpAddMessage (role content now : str)
| OpRecordMood (now : str) (data : SM.mood_data)
| OpEndSession (now : str).

Definition apply_op (s : SM.UserSession) (op : session_op) : SM.UserSession :=
  match op with
  | OpAddMessage role content now => SM.add_message s role content now
  | OpRecordMood now data => SM.record_mood s now data
  | OpEndSession now => SMgr.UserSession_end_session s now
  end.

Definition run_ops (s : SM.UserSession) (ops : list session_op) : SM.UserSession :=
  fold_left apply_op ops s.

(** The messages and the mood snapshots a list of calls adds. *)
Fixpoint messages_of (ops : list session_op) : list SM.message :=
  match ops with
  | [] => []
  | OpAddMessage role content now :: ops' =>
      {| SM.role := role; SM.content := content; SM.message_timestamp := now |}
      :: messages_of ops'
  | _ :: ops' => messages_of ops'
  end.

Fixpoint moods_of (ops : list session_op) : list SM.mood_entry :=
  match ops with
  | [] => []
  | OpRecordMood now data :: ops' => mood_entry_of (now, data) :: moods_of ops'
  | _ :: ops' => moods_of ops'
  end.

Definition is_end (op : session_op) : bool :=
  match op with
  | OpEndSession _ => true
  | _ => false
  end.

(** ** The session manager *)

(** A session is stale at [cutoff]: its last update lies before it. *)
Definition stale `{SMgr.Datetime} (cutoff : str) (entry : str * SM.UserSession)
  : bool :=
  SMgr.datetime_lt (SM.updated_at entry.2) cutoff.

(** A stand-in clock whose readings are single numbers counting hours. *)
Definition example_datetime : SMgr.Datetime := {|
  SMgr.datetime_lt := fun a b =>
    match a, b with
    | [x], [y] => (x <? y)%N
    | _, _ => false
    end;
  SMgr.minus_hours := fun t h =>
    match t with
    | [x] => [(x - Z.to_N h)%N]
    | _ => t
    end
|}.

(** Two sessions, last updated at hours 10 and 40. *)
Definition example_sessions : SMgr.sessions_t :=
  [(lit "a", SM.UserSession_init (lit "a") (lit "u1") [10%N]);
   (lit "b", SM.UserSession_init (lit "b") (lit "u2") [40%N])].

(** ** Histories of the database *)

Module UQ := UserManager_queries.

(** The calls that change the database. *)
Inductive db_op : Type :=
| DbCreateUser (now uid : str)
| DbSaveConversation (now_user now uid user_message : str)
    (bot_response : crisis_handler.response)
    (emotion_result : emotion_classifier.EmotionResult)
    (sentiment : SentimentResult)
| DbStartSession (now uid : str) (initial_emotion : option str)
    (initial_sentiment : option Q)
| DbEndSession (now : str) (session_id : Z) (final_emotion : option str)
    (final_sentiment : option Q).

Definition db_apply (db : UM.database) (op : db_op) : UM.database :=
  match op with
  | DbCreateUser now uid => UM.create_user db now uid
  | DbSaveConversation now_user now uid user_message bot_response emotion_result
      sentiment =>
      (UM.save_conversation db now_user now uid user_message bot_response
         emotion_result sentiment).1
  | DbStartSession now uid initial_emotion initial_sentiment =>
      (UM.start_chat_session db now uid initial_emotion initial_sentiment).1
  | DbEndSession now session_id final_emotion final_sentiment =>
      (UM.end_chat_session db now session_id final_emotion final_sentiment).1
  end.

Definition db_run (db : UM.database) (ops : list db_op) : UM.database :=
  fold_left db_apply ops db.

(** The number of stored turns, and of stored mood rows, of a user. *)
Definition turns_of (db : UM.database) (uid : str) : Z :=
  Z.of_nat (length (List.filter (fun c => bool_decide (UM.conv_user_id c = uid))
                      (UM.conversations db))).

Definition moods_rows_of (db : UM.database) (uid : str) : Z :=
  Z.of_nat (length (List.filter (fun m => bool_decide (UM.mood_user_id m = uid))
                      (UM.mood_tracking db))).

(** The counter [total_conversations] of a user, 0 for a user without a row. *)
Definition total_conversations_of (db : UM.database) (uid : str) : Z :=
  match UM.users db !! uid with
  | Some u => UM.total_conversations u
  | None => 0
  end.

(** The counters agree with the tables, every turn belongs to a stored user,
    and [chat_sessions_seq] bounds the session ids in use. *)
Definition db_consistent (db : UM.database) : Prop :=
  (forall uid, total_conversations_of db uid = turns_of db uid) /\
  (forall uid, moods_rows_of db uid = turns_of db uid) /\
  (forall uid, (0 < turns_of db uid)%Z -> is_Some (UM.users db !! uid)) /\
  (forall sid row, UM.chat_sessions db !! sid = Some row ->
                   (1 <= sid <= UM.chat_sessions_seq db)%Z) /\
  (0 <= UM.chat_sessions_seq db)%Z.

(** A database with an open session whose initial sentiment is [NULL]. *)
Definition example_database_null : UM.database :=
  (UM.start_chat_session UM.empty_database (lit "t0") (lit "u1") None None).1.


(** ** Topic and emotion override *)

(** The words whose presence in the lowered message overrides the label of
    the classifier. *)
Definition emotion_triggers : list string := [
  "anxious"; "anxiety"; "sad"; "sadness"; "depressed"; "angry"; "frustrated";
  "scared"; "afraid"; "fear"; "happy"; "great"; "excited"
]%string.

(** Some keyword of the entry occurs in the lowered message. *)
Definition topic_matches (message_lower : str) (entry : string * list string)
  : bool :=
  existsb (fun keyword => contains (lit keyword) message_lower) entry.2.

(** ** The classifier behind the orchestrator *)

(** The models of the orchestrator, with [classify_emotion] as the source
    defines it over a pipeline. *)
Definition models_of `{PyRuntime} `{EmotionClassifier.Pipeline}
    (generate : str -> str -> str -> str) : emotion_classifier.Models := {|
  emotion_classifier.classify_emotion := EmotionClassifier.classify_emotion;
  emotion_classifier.generate_response := generate
|}.

(** A pipeline that answers every text with the same two predictions, and
    keeps the scores as they are. *)
Definition example_pipeline : EmotionClassifier.Pipeline := {|
  EmotionClassifier.classifier := Some (fun _ =>
    Some [[{| EmotionClassifier.label := lit "fear";
              EmotionClassifier.score := 0.7 |};
           {| EmotionClassifier.label := lit "sadness";
              EmotionClassifier.score := 0.2 |}]]);
  EmotionClassifier.round3 := fun x => x
|}.
(** * Properties *)

(** ** Rational comparisons and the [min]/[max] builtins *)

Lemma Qlt_bool_iff (x y : Q) : Qlt_bool x y = true <-> x < y.
Proof.
  unfold Qlt_bool. rewrite negb_true_iff, <- not_true_iff_false, Qle_bool_iff.
  split; [apply Qnot_le_lt | apply Qlt_not_le].
Qed.

Lemma Qlt_bool_false_iff (x y : Q) : Qlt_bool x y = false <-> y <= x.
Proof.
  unfold Qlt_bool. rewrite negb_false_iff. apply Qle_bool_iff.
Qed.

Lemma Qle_bool_false_iff (x y : Q) : Qle_bool x y = false <-> y < x.
Proof.
  rewrite <- not_true_iff_false, Qle_bool_iff.
  split; [apply Qnot_le_lt | apply Qlt_not_le].
Qed.

(** Case analysis on every boolean comparison of the goal, each case leaving
    the order fact it stands for among the hypotheses. *)
Ltac qcases :=
  repeat match goal with
  | |- context [Qle_bool ?a ?b] =>
      let E := fresh "E" in
      destruct (Qle_bool a b) eqn:E;
      [apply Qle_bool_iff in E | apply Qle_bool_false_iff in E]; cbv iota
  | |- context [Qlt_bool ?a ?b] =>
      let E := fresh "E" in
      destruct (Qlt_bool a b) eqn:E;
      [apply Qlt_bool_iff in E | apply Qlt_bool_false_iff in E]; cbv iota
  end.

Lemma py_min_spec (a b : Q) : py_min a b <= a /\ py_min a b <= b /\
  (py_min a b == a \/ py_min a b == b).
Proof. unfold py_min. qcases; repeat split; try lra; auto with qarith. Qed.

Lemma py_max_spec (a b : Q) : a <= py_max a b /\ b <= py_max a b /\
  (py_max a b == a \/ py_max a b == b).
Proof. unfold py_max. qcases; repeat split; try lra; auto with qarith. Qed.

(** ** C4: the emotion categories partition the score axis *)

Lemma categorize_in_bin (s : Q) : in_bin (_categorize_emotion s) s.
Proof. unfold _categorize_emotion. qcases; simpl; lra. Qed.

Lemma in_bin_unique (c d : EmotionCategory) (s : Q) :
  in_bin c s -> in_bin d s -> c = d.
Proof. destruct c, d; simpl; intros; try reflexivity; exfalso; lra. Qed.

Lemma categorize_monotone (s t : Q) :
  s <= t -> (rank (_categorize_emotion s) <= rank (_categorize_emotion t))%nat.
Proof.
  intros Hst.
  pose proof (categorize_in_bin s) as Hs.
  pose proof (categorize_in_bin t) as Ht.
  destruct (_categorize_emotion s), (_categorize_emotion t);
    simpl in *; try lia; exfalso; lra.
Qed.

(** C4. [_categorize_emotion] is a total function whose value is decided by
    the bin its argument lies in: the seven bins, cut at -0.75, -0.25, -0.05,
    0.05, 0.25 and 0.75, cover every score and are pairwise disjoint; the
    category never steps back as the score grows, it depends on the value of
    the score only, and each of the seven categories is taken somewhere in
    [[-1, 1]]. *)
Theorem categorize_emotion_bins :
  (forall s c, _categorize_emotion s = c <-> in_bin c s) /\
  (forall s, exists c, in_bin c s) /\
  (forall s c d, in_bin c s -> in_bin d s -> c = d) /\
  (forall s t, s <= t ->
     (rank (_categorize_emotion s) <= rank (_categorize_emotion t))%nat) /\
  (forall s t, s == t -> _categorize_emotion s = _categorize_emotion t) /\
  (forall c, -1 <= sample c <= 1 /\ _categorize_emotion (sample c) = c).
Proof.
  repeat split.
  - intros <-. apply categorize_in_bin.
  - intros Hc. eapply in_bin_unique; [apply categorize_in_bin | exact Hc].
  - intros s. exists (_categorize_emotion s). apply categorize_in_bin.
  - intros s c d. apply in_bin_unique.
  - apply categorize_monotone.
  - intros s t Hst. eapply in_bin_unique; [apply categorize_in_bin |].
    pose proof (categorize_in_bin t) as Ht.
    destruct (_categorize_emotion t); simpl in *; lra.
  - destruct c; simpl; lra.
  - destruct c; simpl; lra.
  - destruct c; reflexivity.
Qed.

(** ** The analyzer, call by call *)

Lemma combine_sentiment_scores_clamp (vader_scores : gmap string Q) (tb : Q) :
  _combine_sentiment_scores vader_scores tb ==
  clamp (-1) 1 (0.6 * score_A vader_scores + 0.4 * tb).
Proof.
  unfold _combine_sentiment_scores, clamp, score_A, py_min.
  set (a := default 0 (vader_scores !! "compound"%string)).
  qcases; unfold py_max; qcases; repeat destruct Qlt_le_dec; lra.
Qed.

Lemma clamp_bounds (x : Q) : -1 <= clamp (-1) 1 x <= 1.
Proof. unfold clamp. repeat destruct Qlt_le_dec; lra. Qed.


Lemma analyze_sentiment_invalid {rt : PyRuntime} {sc : Scorers} (now : str) (text : pyval) :
  negb (truthy text) || negb (isinstance_str text) = true ->
  analyze_sentiment now text = (_get_default_sentiment now, [WarnInvalidInput]).
Proof.
  intros Hinv. unfold analyze_sentiment. rewrite Hinv. reflexivity.
Qed.

Lemma analyze_sentiment_valid (text : pyval) :
  negb (truthy text) || negb (isinstance_str text) = false ->
  exists s, text = PyStr s /\ s <> [].
Proof.
  destruct text as [| b | n | x | s | truth]; cbn [isinstance_str negb];
    try (rewrite orb_true_r; discriminate).
  cbn [truthy]. rewrite orb_false_r, negb_involutive.
  intros Hs. apply bool_decide_eq_false in Hs. eauto.
Qed.

Lemma analyze_sentiment_str {rt : PyRuntime} {sc : Scorers} (now : str) (s : str) :
  s <> [] ->
  analyze_sentiment now (PyStr s) =
  (let text_lower := str_strip (str_lower s) in
   let r := _detect_crisis_indicators text_lower in
   let combined_score :=
     _combine_sentiment_scores (vader_polarity_scores s) (TextBlob_polarity s) in
   ({| raw_text := s;
       text_normalized := text_lower;
       vader_scores := vader_polarity_scores s;
       textblob_polarity := TextBlob_polarity s;
       combined_sentiment_score := combined_score;
       emotion_category := EmotionCategory_value (_categorize_emotion combined_score);
       emotion_intensity := _get_emotion_intensity combined_score;
       mental_state_detected := _detect_mental_state text_lower;
       crisis_detected := r.1.1;
       crisis_severity := CrisisSeverity_value r.1.2;
       analysis_timestamp := now |},
    r.2 ++ [CallVader s; CallTextBlob s])).
Proof.
  intros Hs. unfold analyze_sentiment. cbn [truthy isinstance_str negb].
  rewrite bool_decide_eq_false_2 by exact Hs. cbn [negb orb].
  destruct (_detect_crisis_indicators _) as [[cd cs] ev].
  cbv zeta. unfold call_vader, call_textblob, emit, mbind, mret, W_bind, W_ret.
  reflexivity.
Qed.

Lemma analyze_sentiment_scores {rt : PyRuntime} {sc : Scorers} (now : str) (text : pyval) :
  let r := (analyze_sentiment now text).1 in
  combined_sentiment_score r ==
    _combine_sentiment_scores (vader_scores r) (textblob_polarity r) /\
  emotion_intensity r == _get_emotion_intensity (combined_sentiment_score r).
Proof.
  destruct (negb (truthy text) || negb (isinstance_str text)) eqn:Hinv.
  - rewrite (analyze_sentiment_invalid now text Hinv).
    split; vm_compute; reflexivity.
  - destruct (analyze_sentiment_valid text Hinv) as (s & -> & Hs).
    rewrite (analyze_sentiment_str now s Hs). split; reflexivity.
Qed.


(** ** Substring containment *)

Lemma starts_with_spec (p t : str) :
  starts_with p t = true <-> exists b, t = p ++ b.
Proof.
  revert t. induction p as [| c p IH]; intros t; simpl.
  - split; eauto.
  - destruct t as [| d t].
    + split; [discriminate | intros [b Hb]; discriminate].
    + rewrite andb_true_iff, N.eqb_eq, IH. split.
      * intros [-> [b ->]]. eauto.
      * intros [b Hb]. injection Hb as -> ->. eauto.
Qed.

Lemma contains_spec (p t : str) :
  contains p t = true <-> exists a b, t = a ++ p ++ b.
Proof.
  induction t as [| d t IH]; simpl.
  - rewrite orb_false_r, starts_with_spec. split.
    + intros [b Hb]. exists [], b. exact Hb.
    + intros (a & b & Hab). destruct a; [eauto | discriminate].
  - rewrite orb_true_iff, starts_with_spec, IH. split.
    + intros [[b Hb] | (a & b & ->)].
      * exists [], b. exact Hb.
      * exists (d :: a), b. reflexivity.
    + intros (a & b & Hab). destruct a as [| d' a].
      * left. eauto.
      * right. injection Hab as -> ->. eauto.
Qed.

Lemma contains_empty_text (p : str) : contains p [] = true -> p = [].
Proof. destruct p; [reflexivity | discriminate]. Qed.

Lemma find_contains_none (text : str) (l : list str) :
  find (fun p => contains p text) l = None <->
  forall p, In p l -> contains p text = false.
Proof.
  split.
  - intros Hf p Hp. exact (find_none _ _ Hf p Hp).
  - induction l as [| q l IH]; intros Hall; simpl; [reflexivity |].
    rewrite (Hall q) by (left; reflexivity).
    apply IH. intros p Hp. apply Hall. right. exact Hp.
Qed.

(** ** C3: the crisis check of the analyzer *)

Lemma keywords_nonempty :
  ~ In [] CRISIS_PHRASES /\ ~ In [] SELF_HARM_KEYWORDS.
Proof.
  split; intros Hin.
  - assert (Hall : forallb (fun p => negb (bool_decide (p = [])))
                     CRISIS_PHRASES = true) by (vm_compute; reflexivity).
    rewrite forallb_forall in Hall. specialize (Hall _ Hin). discriminate.
  - assert (Hall : forallb (fun p => negb (bool_decide (p = [])))
                     SELF_HARM_KEYWORDS = true) by (vm_compute; reflexivity).
    rewrite forallb_forall in Hall. specialize (Hall _ Hin). discriminate.
Qed.

(** C3. On every text the check goes by priority. If some crisis phrase is
    contained in the text, the result is [(True, CRITICAL)] and the one
    warning logged names a contained crisis phrase (the self-harm list is not
    looked at); otherwise, if some self-harm keyword is contained, the result
    is [(True, CRITICAL)] with the warning of the self-harm list; otherwise
    the result is [(False, NONE)] and nothing is logged. *)
Theorem detect_crisis_indicators_priority (text : str) :
  ((exists p, In p CRISIS_PHRASES /\ contains p text = true) ->
   exists p, In p CRISIS_PHRASES /\ contains p text = true /\
     _detect_crisis_indicators text =
       ((true, CRITICAL), [WarnCrisisIndicator p text])) /\
  ((forall p, In p CRISIS_PHRASES -> contains p text = false) ->
   (exists k, In k SELF_HARM_KEYWORDS /\ contains k text = true) ->
   exists k, In k SELF_HARM_KEYWORDS /\ contains k text = true /\
     _detect_crisis_indicators text =
       ((true, CRITICAL), [WarnSelfHarmIndicator k text])) /\
  ((forall p, In p CRISIS_PHRASES -> contains p text = false) ->
   (forall k, In k SELF_HARM_KEYWORDS -> contains k text = false) ->
   _detect_crisis_indicators text = ((false, NONE), [])).
Proof.
  destruct keywords_nonempty as [Hp0 Hk0].
  unfold _detect_crisis_indicators.
  split; [| split].
  - intros (p & Hp & Hc).
    case_bool_decide as Ht.
    { subst text. apply contains_empty_text in Hc. subst p. contradiction. }
    destruct (find _ CRISIS_PHRASES) as [q |] eqn:Hf.
    + apply find_some in Hf as [Hq Hqc]. exists q. auto.
    + rewrite find_contains_none in Hf. rewrite (Hf p Hp) in Hc. discriminate.
  - intros Hnone (k & Hk & Hc).
    case_bool_decide as Ht.
    { subst text. apply contains_empty_text in Hc. subst k. contradiction. }
    apply find_contains_none in Hnone. rewrite Hnone.
    destruct (find _ SELF_HARM_KEYWORDS) as [q |] eqn:Hf.
    + apply find_some in Hf as [Hq Hqc]. exists q. auto.
    + rewrite find_contains_none in Hf. rewrite (Hf k Hk) in Hc. discriminate.
  - intros Hp Hk.
    apply find_contains_none in Hp, Hk. rewrite Hp, Hk.
    case_bool_decide; reflexivity.
Qed.

(** ** C6: invalid input *)

(** C6. When the input is [None], the empty string or not a string at all,
    [analyze_sentiment] returns the default result (combined score 0, category
    neutral, intensity 0, the four mental-state flags false, no crisis) and
    calls neither polarity scorer: it only logs the invalid-input warning. *)
Theorem analyze_sentiment_default_on_invalid {rt : PyRuntime} {sc : Scorers}
    (now : str) (text : pyval) :
  text = PyNone \/ text = PyStr [] \/ isinstance_str text = false ->
  let r := (analyze_sentiment now text).1 in
  let events := (analyze_sentiment now text).2 in
  r = _get_default_sentiment now /\
  combined_sentiment_score r = 0 /\
  emotion_category r = "neutral"%string /\
  emotion_intensity r = 0 /\
  mental_state_detected r =
    {| stress_indicators := false; depression_indicators := false;
       positive_indicators := false; self_harm_indicators := false |} /\
  crisis_detected r = false /\
  crisis_severity r = "none"%string /\
  events = [WarnInvalidInput] /\
  (forall t, ~ In (CallVader t) events /\ ~ In (CallTextBlob t) events).
Proof.
  intros Hinv.
  assert (Hb : negb (truthy text) || negb (isinstance_str text) = true).
  { destruct Hinv as [-> | [-> | Hn]]; [reflexivity | reflexivity |].
    rewrite Hn. apply orb_true_r. }
  rewrite (analyze_sentiment_invalid now text Hb). cbn [fst snd].
  repeat split; try reflexivity; intros [Hin | []]; discriminate.
Qed.

Lemma analyze_sentiment_default_on_invalid_witness :
  (PyNone = PyNone \/ PyNone = PyStr [] \/ isinstance_str PyNone = false) /\
  ((@analyze_sentiment ascii_runtime example_scorers (lit "t0") PyNone).1 =
     _get_default_sentiment (lit "t0") /\
   (@analyze_sentiment ascii_runtime example_scorers (lit "t0") PyNone).2 =
     [WarnInvalidInput]).
Proof.
  split; [left; reflexivity |].
  pose proof (@analyze_sentiment_default_on_invalid ascii_runtime example_scorers
                (lit "t0") PyNone (or_introl eq_refl)) as Hw.
  cbv zeta in Hw. destruct Hw as (Hr & _ & _ & _ & _ & _ & _ & He & _).
  split; assumption.
Defined.

(** ** C2, C10: the weighted crisis decision *)

Section CrisisDecision.
Context {rt : PyRuntime}.
Import crisis_handler.

(** The loop of the list branch: the matches are appended in the order of the
    table, and the severity becomes 0.9 at the first match. *)
Lemma list_loop_spec (text_lower : str) (keywords : list str)
    (found : list (str * Q)) (ms : Q) :
  fold_left
    (fun '(found_keywords, max_severity) keyword =>
       if contains keyword text_lower
       then (found_keywords ++ [(keyword, 0.9)], 0.9)
       else (found_keywords, max_severity))
    keywords (found, ms) =
  (found ++ map (fun k => (k, 0.9))
              (List.filter (fun k => contains k text_lower) keywords),
   match List.filter (fun k => contains k text_lower) keywords with
   | [] => ms
   | _ :: _ => 0.9
   end).
Proof.
  revert found ms. induction keywords as [| k l IH]; intros found ms; simpl.
  - rewrite app_nil_r. reflexivity.
  - destruct (contains k text_lower); simpl.
    + rewrite IH, <- app_assoc. simpl.
      destruct (List.filter _ l); reflexivity.
    + apply IH.
Qed.


Lemma max_weight_matched (text_lower : str) :
  max_weight (matched_keywords text_lower) =
  match matched_keywords text_lower with
  | [] => 0
  | _ :: _ => 0.9
  end.
Proof.
  unfold matched_keywords, max_weight.
  destruct (List.filter _ _) as [| k l]; [reflexivity |]. simpl.
  induction l as [| k' l IH]; [reflexivity | exact IH].
Qed.

Lemma detect_crisis_configured (text : str) (sentiment_score : Q) :
  detect_crisis CrisisHandler_init text sentiment_score =
  let found := matched_keywords (str_lower text) in
  let base := match found with [] => 0 | _ :: _ => 0.9 end in
  let severity :=
    if Qlt_bool sentiment_score (-0.7) && negb (bool_decide (found = []))
    then py_min 1.0 (base + 0.1) else base in
  (Qle_bool 0.80 severity, severity, found).
Proof.
  unfold detect_crisis, CrisisHandler_init.
  cbn [crisis_keywords crisis_threshold].
  rewrite list_loop_spec. unfold matched_keywords.
  set (m := List.filter _ _). cbn [app]. destruct m; reflexivity.
Qed.

(** C2. For the handler as [CrisisHandler.__init__] builds it, on every text
    and sentiment score: the keywords found are the configured keywords
    contained in the lowered text; the severity is the largest weight among
    them (0 when none matched), plus 0.1 capped at 1.0 when the score is
    strictly below -0.7 and a keyword matched; and [is_crisis] holds exactly
    when the severity is at least 0.80. *)
Theorem detect_crisis_severity_rule (text : str) (sentiment_score : Q) :
  let found := matched_keywords (str_lower text) in
  let r := detect_crisis CrisisHandler_init text sentiment_score in
  r.2 = found /\
  r.1.2 == severity_rule found sentiment_score /\
  (r.1.1 = true <-> 0.80 <= r.1.2).
Proof.
  intros found r. subst r. rewrite detect_crisis_configured.
  fold found. cbv zeta. cbn [fst snd].
  split; [reflexivity |]. split; [| apply Qle_bool_iff].
  unfold severity_rule. subst found. rewrite max_weight_matched.
  destruct (matched_keywords (str_lower text)) as [| kw l].
  - rewrite andb_false_r. destruct Qlt_le_dec; reflexivity.
  - rewrite bool_decide_eq_false_2 by discriminate. rewrite andb_true_r.
    destruct Qlt_le_dec as [Hlt | Hge].
    + apply Qlt_bool_iff in Hlt. rewrite Hlt. vm_compute. reflexivity.
    + apply Qlt_bool_false_iff in Hge. rewrite Hge. reflexivity.
Qed.



(** C10. The configured table is a list, so every keyword found carries the
    weight 0.9; hence whenever the lowered text contains a configured keyword,
    [detect_crisis] answers [is_crisis = True] with a severity of 0.9 or 1.0,
    whatever the sentiment score. *)
Theorem detect_crisis_keyword_always_crisis (text : str) (sentiment_score : Q) :
  (exists k, In k hf_config.CRISIS_KEYWORDS /\
             contains k (str_lower text) = true) ->
  let r := detect_crisis CrisisHandler_init text sentiment_score in
  r.1.1 = true /\
  0.9 <= r.1.2 /\
  (r.1.2 == 0.9 \/ r.1.2 == 1) /\
  r.2 <> [] /\
  Forall (fun kw => kw.2 = 0.9) r.2.
Proof.
  intros (k & Hk & Hc) r. subst r. rewrite detect_crisis_configured.
  cbv zeta. cbn [fst snd].
  assert (Hin : In (k, 0.9) (matched_keywords (str_lower text))).
  { unfold matched_keywords. apply in_map_iff. exists k. split; [reflexivity |].
    apply filter_In. split; assumption. }
  assert (Hw : Forall (fun kw : str * Q => kw.2 = 0.9)
                 (matched_keywords (str_lower text))).
  { unfold matched_keywords. apply List.Forall_forall. intros kw Hkw.
    apply in_map_iff in Hkw as (k' & <- & _). reflexivity. }
  destruct (matched_keywords (str_lower text)) as [| kw l]; [destruct Hin |].
  rewrite bool_decide_eq_false_2 by discriminate. rewrite andb_true_r.
  destruct (Qlt_bool sentiment_score (-0.7));
    (split; [reflexivity |]); (split; [vm_compute; discriminate |]);
    (split; [| split; [discriminate | exact Hw]]).
  - right. reflexivity.
  - left. reflexivity.
Qed.

End CrisisDecision.

Lemma detect_crisis_keyword_always_crisis_witness :
  (exists k, In k hf_config.CRISIS_KEYWORDS /\
     contains k (@str_lower ascii_runtime (lit "I want to DIE")) = true) /\
  (@crisis_handler.detect_crisis ascii_runtime crisis_handler.CrisisHandler_init
     (lit "I want to DIE") 0.5).1.1 = true.
Proof.
  assert (Hex : exists k, In k hf_config.CRISIS_KEYWORDS /\
     contains k (@str_lower ascii_runtime (lit "I want to DIE")) = true).
  { exists (lit "want to die"). split; [| vm_compute; reflexivity].
    right. right. left. reflexivity. }
  split; [exact Hex |].
  exact (proj1 (@detect_crisis_keyword_always_crisis ascii_runtime
                  (lit "I want to DIE") 0.5 Hex)).
Defined.

(** ** C7: word-boundary matching of the mental-state flags *)

Section WordBoundary.
Context {rt : PyRuntime}.

Lemma lookup_after_prefix (kw b : str) : (kw ++ b) !! length kw = head b.
Proof.
  rewrite lookup_app_r by lia. rewrite Nat.sub_diag. symmetry. apply head_lookup.
Qed.

Lemma last_after_cons (l a : str) (c : codepoint) :
  last (l ++ c :: a) = last (c :: a).
Proof.
  induction l as [| d l IH]; [reflexivity |].
  simpl. destruct (l ++ c :: a) eqn:E; [destruct l; discriminate | exact IH].
Qed.

Lemma search_bounded_from_spec (prev : option codepoint) (kw t : str) :
  search_bounded_from prev kw t = true <->
  exists a b, t = a ++ kw ++ b /\
    word_boundary (last (option_list prev ++ a)) (head (kw ++ b)) = true /\
    word_boundary (last (option_list prev ++ a ++ kw)) (head b) = true.
Proof.
  revert prev. induction t as [| c t IH]; intros prev;
    assert (Hlp : last (option_list prev) = prev) by (destruct prev; reflexivity).
  - cbn [search_bounded_from]. rewrite orb_false_r, !andb_true_iff. split.
    + intros [[Hb1 Hs] Hb2]. apply starts_with_spec in Hs as [b Hb].
      symmetry in Hb. apply app_eq_nil in Hb as [-> ->].
      exists [], []. rewrite !app_nil_r in *. rewrite Hlp. auto.
    + intros (a & b & Hab & Hb1 & Hb2).
      symmetry in Hab. apply app_eq_nil in Hab as [-> Hab].
      apply app_eq_nil in Hab as [-> ->].
      rewrite !app_nil_r in *. rewrite Hlp in Hb1. cbn [length]. auto.
  - cbn [search_bounded_from]. rewrite orb_true_iff, !andb_true_iff, IH. split.
    + intros [[[Hb1 Hs] Hb2] | (a & b & -> & Hb1 & Hb2)].
      * apply starts_with_spec in Hs as [b Hb]. exists [], b.
        rewrite Hb in Hb1, Hb2. rewrite lookup_after_prefix in Hb2.
        rewrite app_nil_r, Hlp. auto.
      * exists (c :: a), b. split; [reflexivity |].
        cbn [option_list app] in *. rewrite !last_after_cons. auto.
    + intros (a & b & Hab & Hb1 & Hb2). destruct a as [| c' a].
      * left. rewrite app_nil_r, Hlp in Hb1. cbn [app] in Hab, Hb2. rewrite Hab.
        rewrite lookup_after_prefix.
        repeat split; auto. apply starts_with_spec. eauto.
      * right. injection Hab as -> ->. exists a, b. split; [reflexivity |].
        cbn [option_list app] in *. rewrite !last_after_cons in Hb1, Hb2. auto.
Qed.

Lemma word_ended_is_word (kw : str) :
  word_ended kw = true ->
  kw <> [] /\ is_word (head kw) = true /\ is_word (last kw) = true.
Proof.
  unfold word_ended.
  destruct (head kw) as [c |] eqn:Hh; [| discriminate].
  destruct (last kw) as [d |] eqn:Hl; [| discriminate].
  rewrite !andb_true_iff. intros [[[Hc1 Hc2] Hd1] Hd2].
  split; [intros ->; discriminate |].
  unfold is_word, is_word_char. rewrite Hc1, Hd1. auto.
Qed.

(** For a keyword that begins and ends with a word character, the bounded
    search finds exactly the occurrences that stand as tokens of their own. *)
Lemma re_search_word_bounded_token (kw text : str) :
  word_ended kw = true ->
  re_search_word_bounded kw text = true <-> token_occurrence kw text.
Proof.
  intros Hkw. apply word_ended_is_word in Hkw as (Hne & Hh & Hl).
  unfold re_search_word_bounded, token_occurrence.
  rewrite search_bounded_from_spec.
  assert (Hhead : forall b, head (kw ++ b) = head kw).
  { intros b. destruct kw; [contradiction | reflexivity]. }
  assert (Hlast : forall a, last (a ++ kw) = last kw).
  { intros a. destruct kw as [| c k]; [contradiction |]. apply last_after_cons. }
  unfold word_boundary.
  split; intros (a & b & Hab & H1 & H2); exists a, b; (split; [exact Hab |]);
    change (option_list None ++ a) with a in *;
    change (option_list None ++ a ++ kw) with (a ++ kw) in *.
  - rewrite Hhead, Hh in H1. rewrite Hlast, Hl in H2.
    destruct (is_word (last a)), (is_word (head b)); auto; discriminate.
  - rewrite Hhead, Hh, Hlast, Hl, H1, H2. auto.
Qed.

Lemma has_keyword_token (text : str) (keywords : list str) :
  forallb word_ended keywords = true ->
  has_keyword text keywords = true <->
  exists kw, In kw keywords /\ token_occurrence kw text.
Proof.
  intros Hall. rewrite forallb_forall in Hall.
  unfold has_keyword. rewrite existsb_exists.
  split; intros (kw & Hin & Hkw); exists kw; (split; [exact Hin |]);
    apply (re_search_word_bounded_token kw text (Hall kw Hin)); exact Hkw.
Qed.

(** X7. The three flags that go through [has_keyword] are set by word-boundary
    matching: each is set exactly when a keyword of its list occurs in the
    text as a token sequence of its own. *)
Lemma mental_state_flags_word_bounded (text : str) :
  (stress_indicators (_detect_mental_state text) = true <->
   exists kw, In kw STRESS_KEYWORDS /\ token_occurrence kw text) /\
  (depression_indicators (_detect_mental_state text) = true <->
   exists kw, In kw DEPRESSION_KEYWORDS /\ token_occurrence kw text) /\
  (positive_indicators (_detect_mental_state text) = true <->
   exists kw, In kw POSITIVE_KEYWORDS /\ token_occurrence kw text).
Proof.
  cbn [_detect_mental_state stress_indicators depression_indicators
       positive_indicators].
  repeat split; apply has_keyword_token; vm_compute; reflexivity.
Qed.

(** The fourth flag is a plain substring test. *)
Lemma self_harm_flag_substring (text : str) :
  self_harm_indicators (_detect_mental_state text) = true <->
  exists kw a b, In kw SELF_HARM_KEYWORDS /\ text = a ++ kw ++ b.
Proof.
  cbn [_detect_mental_state self_harm_indicators]. rewrite existsb_exists.
  split.
  - intros (kw & Hin & Hc). apply contains_spec in Hc as (a & b & Hab). eauto.
  - intros (kw & a & b & Hin & Hab). exists kw. split; [exact Hin |].
    apply contains_spec. eauto.
Qed.

(** C7 (fails for the self-harm flag). On the text "changing rooms" the
    self-harm flag is set, although no self-harm keyword occurs there as a
    token of its own: "hanging" is found inside the longer token "changing".
    Word-boundary matching over the same list answers [False]. *)
Theorem self_harm_flag_matches_inside_token :
  let text := lit "changing rooms" in
  self_harm_indicators (_detect_mental_state text) = true /\
  has_keyword text SELF_HARM_KEYWORDS = false /\
  (forall kw, In kw SELF_HARM_KEYWORDS -> ~ token_occurrence kw text) /\
  stress_indicators (_detect_mental_state (lit "distressed")) = false.
Proof.
  intros text.
  assert (Hflag : self_harm_indicators (_detect_mental_state text) = true)
    by (vm_compute; reflexivity).
  assert (Hkw : has_keyword text SELF_HARM_KEYWORDS = false)
    by (vm_compute; reflexivity).
  split; [exact Hflag |]. split; [exact Hkw |]. split.
  - intros kw Hin Htok.
    assert (Hex : has_keyword text SELF_HARM_KEYWORDS = true).
    { apply has_keyword_token; [vm_compute; reflexivity | eauto]. }
    rewrite Hkw in Hex. discriminate.
  - vm_compute. reflexivity.
Qed.

End WordBoundary.

(** ** C8: mood tracking in a session *)



(** A snapshot without a numeric score makes the subtraction raise. *)
Lemma get_mood_change_type_error (s : SM.UserSession)
    (initial current : SM.mood_entry) :
  SM.initial_mood s = Some initial -> SM.current_mood s = Some current ->
  SM.sentiment_score initial = None \/ SM.sentiment_score current = None ->
  SM.get_mood_change s = SM.RaiseTypeError.
Proof.
  intros Hi Hc Hnone. unfold SM.get_mood_change. rewrite Hi, Hc.
  destruct Hnone as [-> | ->]; [destruct (SM.sentiment_score current) |];
    reflexivity.
Qed.


(** ** C9: ending a chat session *)


(** A row whose initial sentiment is [NULL], or a final sentiment of [None]:
    the subtraction raises, the [except] clause returns [None], and nothing
    is stored. *)
Lemma end_chat_session_without_number (db : UM.database) (now : str)
    (session_id : Z) (final_emotion : option str) (final_sentiment : option Q)
    (row : UM.chat_session_row) :
  UM.chat_sessions db !! session_id = Some row ->
  UM.initial_sentiment row = None \/ final_sentiment = None ->
  UM.end_chat_session db now session_id final_emotion final_sentiment =
    (db, None).
Proof.
  intros Hrow Hnone. unfold UM.end_chat_session. rewrite Hrow.
  destruct Hnone as [-> | ->]; [destruct final_sentiment |]; reflexivity.
Qed.


(** ** C1: what makes the orchestrator escalate *)

Section Orchestrator.
Context {rt : PyRuntime} {sc : Scorers} {md : emotion_classifier.Models}.

Lemma get_crisis_response_spec (self : crisis_handler.CrisisHandler)
    (text : str) (score : Q) :
  let d := crisis_handler.detect_crisis self text score in
  crisis_handler.get_crisis_response self text score =
  if d.1.1
  then (true, Some (crisis_handler.CrisisResponse
                      (crisis_handler.format_crisis_response d.1.2 d.2)))
  else (false, None).
Proof.
  intros d. unfold crisis_handler.get_crisis_response. fold d.
  destruct d as [[c sev] kws]. reflexivity.
Qed.

Lemma process_user_message_spec (self : HC.HybridMentalHealthChatbot)
    (now_analysis now_user now_turn user_id user_message : str) :
  let a := analyze_sentiment now_analysis (PyStr user_message) in
  let d := crisis_handler.detect_crisis (HC.the_crisis_handler self) user_message
             (combined_sentiment_score a.1) in
  let response :=
    if d.1.1
    then crisis_handler.CrisisResponse
           (crisis_handler.format_crisis_response d.1.2 d.2)
    else crisis_handler.GeneratedResponse
           (emotion_classifier.generate_response user_message
              (HC._match_emotion_precisely
                 (emotion_classifier.primary_emotion
                    (emotion_classifier.classify_emotion user_message))
                 user_message)
              (HC._extract_topic user_message)) in
  HC.process_user_message self now_analysis now_user now_turn user_id user_message =
  ({| HC.the_crisis_handler := HC.the_crisis_handler self;
      HC.db := (UM.save_conversation (HC.db self) now_user now_turn user_id
                  user_message response
                  (emotion_classifier.classify_emotion user_message) a.1).1 |},
   {| HC.response := response;
      HC.emotion :=
        HC._match_emotion_precisely
          (emotion_classifier.primary_emotion
             (emotion_classifier.classify_emotion user_message))
          user_message;
      HC.result_emotion_confidence :=
        emotion_classifier.confidence
          (emotion_classifier.classify_emotion user_message);
      HC.sentiment := a.1;
      HC.is_crisis := d.1.1 |},
   a.2).
Proof.
  intros a d response. unfold HC.process_user_message.
  fold a. destruct a as [sentiment events] eqn:Ha.
  unfold mbind, W_bind. cbn [fst snd] in *.
  rewrite get_crisis_response_spec. fold d. subst response.
  destruct (d.1.1); cbn [UM.save_conversation fst snd mret W_ret];
    rewrite app_nil_r; reflexivity.
Qed.

(** C1 (as the code has it). The orchestrator runs the analysis, whose
    result (with the analyzer's own crisis flag) it returns and stores with
    the turn, but it escalates exactly when the weighted decision of the
    crisis handler, taken on the message and the combined score, is true:
    then and only then [is_crisis] is set and the response is the crisis
    template. Hence an escalation implies that one of the two checks holds,
    while the analyzer's check alone does not escalate. *)
Theorem process_user_message_escalates_on_handler
    (self : HC.HybridMentalHealthChatbot)
    (now_analysis now_user now_turn user_id user_message : str) :
  let out := (HC.process_user_message self now_analysis now_user now_turn
                user_id user_message).1 in
  let r := out.2 in
  HC.sentiment r = (analyze_sentiment now_analysis (PyStr user_message)).1 /\
  HC.is_crisis r = handler_check self now_analysis user_message /\
  escalates r = handler_check self now_analysis user_message /\
  (escalates r = true ->
   analyzer_check now_analysis user_message
     || handler_check self now_analysis user_message = true) /\
  (exists turn, last (UM.conversations (HC.db out.1)) = Some turn /\
     UM.bot_response turn = HC.response r /\
     UM.is_crisis turn =
       if analyzer_check now_analysis user_message then 1%Z else 0%Z).
Proof.
  intros out r. subst r out. rewrite process_user_message_spec.
  cbn [fst snd HC.sentiment HC.is_crisis HC.response HC.db escalates].
  unfold handler_check, analyzer_check.
  set (a := analyze_sentiment now_analysis (PyStr user_message)).
  set (d := crisis_handler.detect_crisis _ _ _).
  split; [reflexivity |]. split; [reflexivity |].
  split; [destruct (d.1.1); reflexivity |].
  split.
  - destruct (d.1.1); [intros _; apply orb_true_r | discriminate].
  - cbn [UM.save_conversation fst UM.conversations].
    rewrite last_snoc. eexists. split; [reflexivity |].
    cbn [UM.bot_response UM.is_crisis]. split; reflexivity.
Qed.

End Orchestrator.

(** No keyword of the handler's table is contained in "i'm suicidal", so the
    handler does not decide for a crisis there, whatever the two scorers
    answer; the analyzer's phrase list holds the message itself. *)
Lemma suicidal_message_checks (sc : Scorers) (db : UM.database) (now : str) :
  @analyzer_check ascii_runtime sc now (lit "i'm suicidal") = true /\
  @handler_check ascii_runtime sc (HC.HybridMentalHealthChatbot_init db) now
    (lit "i'm suicidal") = false.
Proof.
  split.
  - unfold analyzer_check.
    rewrite analyze_sentiment_str by discriminate.
    cbv zeta. cbn [fst crisis_detected]. vm_compute. reflexivity.
  - unfold handler_check.
    cbn [HC.HybridMentalHealthChatbot_init HC.the_crisis_handler].
    rewrite detect_crisis_configured. cbv zeta. cbn [fst snd].
    assert (Hnone : matched_keywords (@str_lower ascii_runtime (lit "i'm suicidal")) = [])
      by (vm_compute; reflexivity).
    rewrite Hnone. rewrite andb_false_r. reflexivity.
Qed.

(** C1 (as stated) fails: on the message "i'm suicidal" the analyzer's phrase
    check is true, so the union of the two checks is true, but the handler's
    table holds no keyword contained in the message and the orchestrator
    answers with generated text. *)
Lemma process_user_message_ignores_analyzer_check :
  let self := HC.HybridMentalHealthChatbot_init UM.empty_database in
  let msg := lit "i'm suicidal" in
  let r := (@HC.process_user_message ascii_runtime example_scorers example_models
              self (lit "t1") (lit "t2") (lit "t3") (lit "u1") msg).1.2 in
  @analyzer_check ascii_runtime example_scorers (lit "t1") msg
    || @handler_check ascii_runtime example_scorers self (lit "t1") msg = true /\
  escalates r = false /\
  HC.is_crisis r = false /\
  ~ (escalates r = true <->
     @analyzer_check ascii_runtime example_scorers (lit "t1") msg
       || @handler_check ascii_runtime example_scorers self (lit "t1") msg = true).
Proof.
  intros self msg r.
  assert (Hor : @analyzer_check ascii_runtime example_scorers (lit "t1") msg
    || @handler_check ascii_runtime example_scorers self (lit "t1") msg = true)
    by (vm_compute; reflexivity).
  assert (Hesc : escalates r = false) by (vm_compute; reflexivity).
  split; [exact Hor |]. split; [exact Hesc |].
  split; [vm_compute; reflexivity |].
  intros [_ Hback]. rewrite (Hback Hor) in Hesc. discriminate.
Qed.

(** ** The examples of the specification, run on the model *)

Example crisis_phrase_path :
  _detect_crisis_indicators (lit "i want to kill myself") =
  ((true, CRITICAL),
   [WarnCrisisIndicator (lit "kill myself") (lit "i want to kill myself")]).
Proof. vm_compute. reflexivity. Qed.

Example crisis_self_harm_path :
  _detect_crisis_indicators (lit "i'm cutting myself") =
  ((true, CRITICAL),
   [WarnSelfHarmIndicator (lit "cutting myself") (lit "i'm cutting myself")]).
Proof. vm_compute. reflexivity. Qed.

Example analyze_kill_myself :
  crisis_detected
    (@analyze_sentiment ascii_runtime example_scorers (lit "t0")
       (PyStr (lit "I want to kill myself"))).1 = true.
Proof. vm_compute. reflexivity. Qed.

Example analyze_empty_and_none :
  (@analyze_sentiment ascii_runtime example_scorers (lit "t0") (PyStr [])).1 =
    _get_default_sentiment (lit "t0") /\
  (@analyze_sentiment ascii_runtime example_scorers (lit "t0") PyNone).1 =
    _get_default_sentiment (lit "t0").
Proof. split; reflexivity. Qed.

Example stress_flag_anxious :
  stress_indicators
    (mental_state_detected
       (@analyze_sentiment ascii_runtime example_scorers (lit "t0")
          (PyStr (lit "I'm feeling anxious and overwhelmed"))).1) = true.
Proof. vm_compute. reflexivity. Qed.

Example severity_with_low_score :
  @crisis_handler.detect_crisis ascii_runtime crisis_handler.CrisisHandler_init
    (lit "I want to end it all") (-0.8) =
  (true, py_min 1.0 (0.9 + 0.1), [(lit "end it all", 0.9)]).
Proof. vm_compute. reflexivity. Qed.

Example end_session_improved :
  let res := (UM.end_chat_session example_database (lit "t9") 1 None (Some 0.5)).2 in
  option_map UM.improved res = Some true /\
  option_map UM.stable res = Some false /\
  option_map UM.declined res = Some false.
Proof. vm_compute. auto. Qed.

Example end_session_stable :
  option_map UM.stable
    (UM.end_chat_session example_database (lit "t9") 1 None (Some 0.25)).2 =
  Some true.
Proof. vm_compute. reflexivity. Qed.

(** * Further properties of the code *)

(** ** The crisis handler *)

Section CrisisHandlerMore.
Context {rt : PyRuntime}.
Import crisis_handler.

Lemma matched_keywords_nonempty_iff (text_lower : str) :
  matched_keywords text_lower <> [] <->
  exists k, In k hf_config.CRISIS_KEYWORDS /\ contains k text_lower = true.
Proof.
  unfold matched_keywords. split.
  - destruct (List.filter _ _) as [| k l] eqn:Hf; [intros Hne; contradiction |].
    intros _. exists k.
    apply (proj1 (filter_In (fun k => contains k text_lower) k
                    hf_config.CRISIS_KEYWORDS)).
    rewrite Hf. left. reflexivity.
  - intros (k & Hk & Hc) Hnil.
    assert (Hin : In k (List.filter (fun k => contains k text_lower)
                          hf_config.CRISIS_KEYWORDS)).
    { apply filter_In. split; assumption. }
    destruct (List.filter _ _); [destruct Hin | discriminate].
Qed.

Lemma detect_crisis_configured_flag (text : str) (score : Q) :
  (detect_crisis CrisisHandler_init text score).1.1 =
  negb (bool_decide (matched_keywords (str_lower text) = [])).
Proof.
  rewrite detect_crisis_configured. cbv zeta. cbn [fst snd].
  destruct (matched_keywords (str_lower text)) as [| kw l].
  - rewrite andb_false_r. reflexivity.
  - rewrite bool_decide_eq_false_2 by discriminate. rewrite andb_true_r.
    destruct (Qlt_bool score (-0.7)); reflexivity.
Qed.

Lemma detect_crisis_iff_keyword_aux (text : str) (score : Q) :
  (detect_crisis CrisisHandler_init text score).1.1 = true <->
  exists k, In k hf_config.CRISIS_KEYWORDS /\
            contains k (str_lower text) = true.
Proof.
  rewrite detect_crisis_configured_flag, <- matched_keywords_nonempty_iff.
  rewrite negb_true_iff, bool_decide_eq_false. reflexivity.
Qed.

(** X1. The configured handler decides for a crisis exactly when the lowered
    text contains one of its keywords; the sentiment score has no say in the
    decision, however negative it is. *)
Theorem detect_crisis_iff_keyword (text : str) :
  (forall score,
     (detect_crisis CrisisHandler_init text score).1.1 = true <->
     exists k, In k hf_config.CRISIS_KEYWORDS /\
               contains k (str_lower text) = true) /\
  (forall score1 score2,
     (detect_crisis CrisisHandler_init text score1).1.1 =
     (detect_crisis CrisisHandler_init text score2).1.1 /\
     (detect_crisis CrisisHandler_init text score1).2 =
     (detect_crisis CrisisHandler_init text score2).2).
Proof.
  split.
  - intros score. apply detect_crisis_iff_keyword_aux.
  - intros score1 score2. rewrite !detect_crisis_configured_flag.
    split; [reflexivity |].
    rewrite !detect_crisis_configured. reflexivity.
Qed.

(** X2. With the configured handler, [get_crisis_response] either answers
    [(True, template)] with the template of the highest urgency, when a
    keyword is contained in the lowered text, or [(False, None)]; the two
    lower urgency tiers are never produced. *)
Theorem get_crisis_response_configured_tier (text : str) (score : Q) :
  ((exists k, In k hf_config.CRISIS_KEYWORDS /\
              contains k (str_lower text) = true) ->
   get_crisis_response CrisisHandler_init text score =
     (true, Some (CrisisResponse IMMEDIATE_SUPPORT_NEEDED))) /\
  ((forall k, In k hf_config.CRISIS_KEYWORDS ->
              contains k (str_lower text) = false) ->
   get_crisis_response CrisisHandler_init text score = (false, None)) /\
  (get_crisis_response CrisisHandler_init text score =
     (true, Some (CrisisResponse IMMEDIATE_SUPPORT_NEEDED)) \/
   get_crisis_response CrisisHandler_init text score = (false, None)).
Proof.
  assert (Hcases :
    (matched_keywords (str_lower text) <> [] /\
     get_crisis_response CrisisHandler_init text score =
       (true, Some (CrisisResponse IMMEDIATE_SUPPORT_NEEDED))) \/
    (matched_keywords (str_lower text) = [] /\
     get_crisis_response CrisisHandler_init text score = (false, None))).
  { unfold get_crisis_response. rewrite detect_crisis_configured. cbv zeta.
    destruct (matched_keywords (str_lower text)) as [| kw l].
    - right. split; [reflexivity |]. rewrite andb_false_r. reflexivity.
    - left. split; [discriminate |].
      rewrite bool_decide_eq_false_2 by discriminate. rewrite andb_true_r.
      destruct (Qlt_bool score (-0.7)); reflexivity. }
  split; [| split].
  - intros Hex. apply matched_keywords_nonempty_iff in Hex.
    destruct Hcases as [[_ Hr] | [Hnil _]]; [exact Hr | contradiction].
  - intros Hnone. destruct Hcases as [[Hne _] | [_ Hr]]; [| exact Hr].
    apply matched_keywords_nonempty_iff in Hne as (k & Hk & Hc).
    rewrite (Hnone k Hk) in Hc. discriminate.
  - destruct Hcases as [[_ Hr] | [_ Hr]]; auto.
Qed.

End CrisisHandlerMore.


(** ** The analyzer *)

Section AnalyzerMore.
Context {rt : PyRuntime} {sc : Scorers}.

Lemma detect_crisis_indicators_flag (text : str) :
  (_detect_crisis_indicators text).1 =
  (existsb (fun p => contains p text) crisis_vocabulary,
   if existsb (fun p => contains p text) crisis_vocabulary
   then CRITICAL else NONE) /\
  List.filter is_scorer_call (_detect_crisis_indicators text).2 = [].
Proof.
  unfold _detect_crisis_indicators, crisis_vocabulary.
  case_bool_decide as Ht.
  - subst text. split; [vm_compute |]; reflexivity.
  - rewrite existsb_app.
    destruct (find _ CRISIS_PHRASES) as [p |] eqn:Hp.
    + apply find_some in Hp as [Hin Hc].
      assert (He : existsb (fun p => contains p text) CRISIS_PHRASES = true).
      { apply existsb_exists. eauto. }
      rewrite He. split; reflexivity.
    + assert (He : existsb (fun p => contains p text) CRISIS_PHRASES = false).
      { apply not_true_iff_false. intros Hex.
        apply existsb_exists in Hex as (p & Hin & Hc).
        rewrite (find_none _ _ Hp p Hin) in Hc. discriminate. }
      rewrite He. cbn [orb].
      destruct (find _ SELF_HARM_KEYWORDS) as [k |] eqn:Hk.
      * apply find_some in Hk as [Hin Hc].
        assert (He' : existsb (fun p => contains p text) SELF_HARM_KEYWORDS = true).
        { apply existsb_exists. eauto. }
        rewrite He'. split; reflexivity.
      * assert (He' : existsb (fun p => contains p text) SELF_HARM_KEYWORDS = false).
        { apply not_true_iff_false. intros Hex.
          apply existsb_exists in Hex as (p & Hin & Hc).
          rewrite (find_none _ _ Hk p Hin) in Hc. discriminate. }
        rewrite He'. split; reflexivity.
Qed.

(** X4. On a non-empty string the analyzer calls each polarity scorer exactly
    once, VADER first, and hands both the raw text; the lowered and stripped
    text is used for the keyword checks only and is what the result reports
    as normalized text. *)
Theorem analyze_sentiment_scorer_calls (now : str) (s : str) :
  s <> [] ->
  let a := analyze_sentiment now (PyStr s) in
  raw_text a.1 = s /\
  text_normalized a.1 = str_strip (str_lower s) /\
  vader_scores a.1 = vader_polarity_scores s /\
  textblob_polarity a.1 = TextBlob_polarity s /\
  mental_state_detected a.1 = _detect_mental_state (str_strip (str_lower s)) /\
  List.filter is_scorer_call a.2 = [CallVader s; CallTextBlob s].
Proof.
  intros Hs a. subst a. rewrite (analyze_sentiment_str now s Hs).
  cbv zeta. cbn [fst snd raw_text text_normalized vader_scores textblob_polarity
                 mental_state_detected].
  repeat (split; [reflexivity |]).
  rewrite List.filter_app.
  rewrite (proj2 (detect_crisis_indicators_flag (str_strip (str_lower s)))).
  reflexivity.
Qed.

Lemma analyze_sentiment_crisis_fields (now : str) (s : str) :
  s <> [] ->
  let r := (analyze_sentiment now (PyStr s)).1 in
  crisis_detected r =
    existsb (fun p => contains p (str_strip (str_lower s))) crisis_vocabulary /\
  crisis_severity r = CrisisSeverity_value (if crisis_detected r then CRITICAL else NONE).
Proof.
  intros Hs r. subst r. rewrite (analyze_sentiment_str now s Hs).
  cbv zeta. cbn [fst crisis_detected crisis_severity].
  rewrite (proj1 (detect_crisis_indicators_flag (str_strip (str_lower s)))).
  cbn [fst snd]. split; reflexivity.
Qed.

(** X5. In every result of the analyzer the crisis flag is set exactly when
    the input is a non-empty string whose lowered and stripped text contains a
    crisis phrase or a self-harm keyword, and the severity it reports is
    "critical" with the flag and "none" without it: the levels "high" and
    "moderate" are never reported. *)
Theorem analyze_sentiment_crisis_flag (now : str) (text : pyval) :
  let r := (analyze_sentiment now text).1 in
  (crisis_detected r = true <->
   exists s, text = PyStr s /\ s <> [] /\
     exists p, In p crisis_vocabulary /\
               contains p (str_strip (str_lower s)) = true) /\
  crisis_severity r = (if crisis_detected r then "critical" else "none")%string.
Proof.
  intros r. subst r.
  destruct (negb (truthy text) || negb (isinstance_str text)) eqn:Hinv.
  - rewrite (analyze_sentiment_invalid now text Hinv).
    cbn [fst _get_default_sentiment crisis_detected crisis_severity].
    split; [| reflexivity]. split; [discriminate |].
    intros (s & -> & Hs & _). cbn [truthy isinstance_str negb] in Hinv.
    rewrite bool_decide_eq_false_2 in Hinv by exact Hs. discriminate.
  - destruct (analyze_sentiment_valid text Hinv) as (s & -> & Hs).
    destruct (analyze_sentiment_crisis_fields now s Hs) as [Hd Hsev].
    cbv zeta in Hd, Hsev. rewrite Hsev. split.
    + rewrite Hd, existsb_exists. split.
      * intros Hex. exists s. auto.
      * intros (s' & Heq & _ & Hex). injection Heq as <-. exact Hex.
    + destruct (crisis_detected _); reflexivity.
Qed.

(** X6. Whenever a result of the analyzer has the self-harm flag set, its
    crisis flag is set too. *)
Theorem self_harm_flag_implies_crisis (now : str) (text : pyval) :
  self_harm_indicators (mental_state_detected (analyze_sentiment now text).1) = true ->
  crisis_detected (analyze_sentiment now text).1 = true.
Proof.
  destruct (negb (truthy text) || negb (isinstance_str text)) eqn:Hinv.
  - rewrite (analyze_sentiment_invalid now text Hinv). discriminate.
  - destruct (analyze_sentiment_valid text Hinv) as (s & -> & Hs).
    rewrite (proj1 (analyze_sentiment_crisis_fields now s Hs)).
    rewrite (analyze_sentiment_str now s Hs). cbv zeta.
    cbn [fst mental_state_detected _detect_mental_state self_harm_indicators].
    intros Hflag. unfold crisis_vocabulary. rewrite existsb_app, Hflag.
    apply orb_true_r.
Qed.

Lemma analyze_sentiment_category (now : str) (text : pyval) :
  let r := (analyze_sentiment now text).1 in
  emotion_category r =
  EmotionCategory_value (_categorize_emotion (combined_sentiment_score r)).
Proof.
  destruct (negb (truthy text) || negb (isinstance_str text)) eqn:Hinv.
  - rewrite (analyze_sentiment_invalid now text Hinv). reflexivity.
  - destruct (analyze_sentiment_valid text Hinv) as (s & -> & Hs).
    rewrite (analyze_sentiment_str now s Hs). reflexivity.
Qed.

Lemma combined_score_bounds (now : str) (text : pyval) :
  -1 <= combined_sentiment_score (analyze_sentiment now text).1 <= 1.
Proof.
  destruct (analyze_sentiment_scores now text) as [Hc _]. cbv zeta in Hc.
  rewrite Hc, combine_sentiment_scores_clamp. apply clamp_bounds.
Qed.

Lemma combined_score_clock_independent (now now' : str) (text : pyval) :
  combined_sentiment_score (analyze_sentiment now text).1 =
  combined_sentiment_score (analyze_sentiment now' text).1.
Proof.
  destruct (negb (truthy text) || negb (isinstance_str text)) eqn:Hinv.
  - rewrite !(analyze_sentiment_invalid _ text Hinv). reflexivity.
  - destruct (analyze_sentiment_valid text Hinv) as (s & -> & Hs).
    rewrite !(analyze_sentiment_str _ s Hs). reflexivity.
Qed.

Lemma EmotionCategory_value_inj (c d : EmotionCategory) :
  EmotionCategory_value c = EmotionCategory_value d -> c = d.
Proof. destruct c, d; simpl; intros Heq; try reflexivity; discriminate. Qed.

(** Category and intensity of a result agree: a neutral result has an
    intensity of at most 0.05 and every intensity below 0.05 is neutral; an
    intensity above 0.75 is very negative or very positive, and those two
    categories have an intensity of at least 0.75. *)
Theorem emotion_category_vs_intensity (now : str) (text : pyval) :
  let r := (analyze_sentiment now text).1 in
  (emotion_category r = "neutral"%string -> emotion_intensity r <= 0.05) /\
  (emotion_intensity r < 0.05 -> emotion_category r = "neutral"%string) /\
  (0.75 < emotion_intensity r ->
   emotion_category r = "very_negative"%string \/
   emotion_category r = "very_positive"%string) /\
  (emotion_category r = "very_negative"%string \/
   emotion_category r = "very_positive"%string ->
   0.75 <= emotion_intensity r).
Proof.
  intros r.
  pose proof (analyze_sentiment_category now text) as Hcat.
  destruct (analyze_sentiment_scores now text) as [_ Hint].
  cbv zeta in Hcat, Hint. fold r in Hcat, Hint.
  set (c := combined_sentiment_score r) in *.
  pose proof (categorize_in_bin c) as Hbin.
  unfold _get_emotion_intensity in Hint.
  assert (Habs : (0 <= c /\ emotion_intensity r == c) \/
                 (c <= 0 /\ emotion_intensity r == - c)).
  { destruct (Qlt_le_dec c 0) as [Hneg | Hpos].
    - right. split; [lra |]. rewrite Hint. apply Qabs_neg. lra.
    - left. split; [lra |]. rewrite Hint. apply Qabs_pos. lra. }
  rewrite Hcat.
  change "neutral"%string with (EmotionCategory_value NEUTRAL).
  change "very_negative"%string with (EmotionCategory_value VERY_NEGATIVE).
  change "very_positive"%string with (EmotionCategory_value VERY_POSITIVE).
  repeat split.
  - intros Heq. apply EmotionCategory_value_inj in Heq. rewrite Heq in Hbin.
    simpl in Hbin. destruct Habs as [[? ->] | [? ->]]; lra.
  - intros Hlt. f_equal.
    destruct (_categorize_emotion c); simpl in Hbin; try reflexivity; exfalso;
      destruct Habs as [[? Hi] | [? Hi]]; rewrite Hi in Hlt; lra.
  - intros Hgt.
    destruct (_categorize_emotion c); simpl in Hbin; auto; exfalso;
      destruct Habs as [[? Hi] | [? Hi]]; rewrite Hi in Hgt; lra.
  - intros [Heq | Heq]; apply EmotionCategory_value_inj in Heq;
      rewrite Heq in Hbin; simpl in Hbin;
      destruct Habs as [[? ->] | [? ->]]; lra.
Qed.

End AnalyzerMore.

Lemma analyze_sentiment_scorer_calls_witness :
  lit "I feel OK" <> [] /\
  List.filter is_scorer_call
    (@analyze_sentiment ascii_runtime example_scorers (lit "t0")
       (PyStr (lit "I feel OK"))).2 =
  [CallVader (lit "I feel OK"); CallTextBlob (lit "I feel OK")].
Proof.
  assert (Hne : lit "I feel OK" <> []) by discriminate.
  split; [exact Hne |].
  pose proof (@analyze_sentiment_scorer_calls ascii_runtime example_scorers
                (lit "t0") (lit "I feel OK") Hne) as Hw.
  cbv zeta in Hw. exact (proj2 (proj2 (proj2 (proj2 (proj2 Hw))))).
Defined.

Lemma self_harm_flag_implies_crisis_witness :
  self_harm_indicators
    (mental_state_detected
       (@analyze_sentiment ascii_runtime example_scorers (lit "t0")
          (PyStr (lit "thinking about an Overdose"))).1) = true /\
  crisis_detected
    (@analyze_sentiment ascii_runtime example_scorers (lit "t0")
       (PyStr (lit "thinking about an Overdose"))).1 = true.
Proof.
  assert (Hflag : self_harm_indicators
    (mental_state_detected
       (@analyze_sentiment ascii_runtime example_scorers (lit "t0")
          (PyStr (lit "thinking about an Overdose"))).1) = true)
    by (vm_compute; reflexivity).
  split; [exact Hflag |].
  exact (@self_harm_flag_implies_crisis ascii_runtime example_scorers (lit "t0")
           (PyStr (lit "thinking about an Overdose")) Hflag).
Defined.

(** ** Comparing two messages *)

Section CompareSentiments.
Context {rt : PyRuntime} {sc : Scorers}.
Import SentimentAnalyzer.

Lemma compare_sentiments_spec (now1 now2 : str) (text1 text2 : pyval) :
  let a1 := analyze_sentiment now1 text1 in
  let a2 := analyze_sentiment now2 text2 in
  let change := combined_sentiment_score a2.1 - combined_sentiment_score a1.1 in
  compare_sentiments now1 now2 text1 text2 =
  ({| pre_sentiment := a1.1;
      post_sentiment := a2.1;
      sentiment_change := change;
      improved := Qlt_bool 0.1 change;
      degraded := Qlt_bool change (-0.1);
      stable := Qle_bool (-0.1) change && Qle_bool change 0.1 |},
   a1.2 ++ a2.2).
Proof.
  intros a1 a2 change. unfold compare_sentiments.
  fold a1 a2. subst change.
  destruct a1 as [r1 e1], a2 as [r2 e2].
  unfold mbind, W_bind, mret, W_ret. cbn [fst snd].
  rewrite app_nil_r. reflexivity.
Qed.

(** X8. A comparison of two messages reports a change between -2 and 2 and
    sets exactly one of its three flags: [improved] when the change exceeds
    0.1, [degraded] when it is below -0.1, [stable] in between (bounds
    included). Both analyses are run, the first message first. *)
Theorem compare_sentiments_one_flag (now1 now2 : str) (text1 text2 : pyval) :
  let c := compare_sentiments now1 now2 text1 text2 in
  -2 <= sentiment_change c.1 <= 2 /\
  (improved c.1 = true <-> 0.1 < sentiment_change c.1) /\
  (degraded c.1 = true <-> sentiment_change c.1 < -0.1) /\
  (stable c.1 = true <-> -0.1 <= sentiment_change c.1 <= 0.1) /\
  In (improved c.1, stable c.1, degraded c.1)
    [(true, false, false); (false, true, false); (false, false, true)] /\
  c.2 = (analyze_sentiment now1 text1).2 ++ (analyze_sentiment now2 text2).2.
Proof.
  intros c. subst c. rewrite compare_sentiments_spec. cbv zeta.
  cbn [fst snd sentiment_change improved degraded stable].
  pose proof (combined_score_bounds now1 text1) as H1.
  pose proof (combined_score_bounds now2 text2) as H2.
  set (x := combined_sentiment_score (analyze_sentiment now2 text2).1 -
            combined_sentiment_score (analyze_sentiment now1 text1).1) in *.
  assert (Hx : -2 <= x <= 2) by (subst x; lra).
  split; [exact Hx |].
  split; [apply Qlt_bool_iff |].
  split; [apply Qlt_bool_iff |].
  split; [rewrite andb_true_iff, !Qle_bool_iff; tauto |].
  split; [| reflexivity].
  qcases; cbn [andb]; try (exfalso; lra); simpl; auto.
Qed.

(** X9. Swapping the two messages of a comparison negates the change and
    exchanges [improved] and [degraded], whatever the clock readings;
    [stable] stays. *)
Theorem compare_sentiments_swap (now1 now2 now3 now4 : str)
    (text1 text2 : pyval) :
  let c := (compare_sentiments now1 now2 text1 text2).1 in
  let c' := (compare_sentiments now3 now4 text2 text1).1 in
  sentiment_change c' == - sentiment_change c /\
  improved c' = degraded c /\
  degraded c' = improved c /\
  stable c' = stable c.
Proof.
  intros c c'. subst c c'. rewrite !compare_sentiments_spec. cbv zeta.
  cbn [fst sentiment_change improved degraded stable].
  rewrite (combined_score_clock_independent now3 now2 text2).
  rewrite (combined_score_clock_independent now4 now1 text1).
  set (x := combined_sentiment_score (analyze_sentiment now1 text1).1).
  set (y := combined_sentiment_score (analyze_sentiment now2 text2).1).
  split; [ring |].
  qcases; cbn [andb]; repeat split; try reflexivity; exfalso; lra.
Qed.

End CompareSentiments.

(** ** Histories of a session *)

Lemma run_ops_spec (s : SM.UserSession) (ops : list session_op) :
  let s' := run_ops s ops in
  SM.conversation_history s' = SM.conversation_history s ++ messages_of ops /\
  SM.mood_log s' = SM.mood_log s ++ moods_of ops /\
  SM.session_id s' = SM.session_id s /\
  SM.user_id s' = SM.user_id s /\
  SM.created_at s' = SM.created_at s /\
  SM.initial_mood s' =
    match SM.initial_mood s with
    | Some m => Some m
    | None => head (moods_of ops)
    end /\
  SM.current_mood s' =
    match last (moods_of ops) with
    | Some e => Some e
    | None => SM.current_mood s
    end /\
  SM.session_active s' = SM.session_active s && negb (existsb is_end ops).
Proof.
  revert s. induction ops as [| op ops IH]; intros s.
  - cbn. rewrite !app_nil_r, andb_true_r.
    destruct (SM.initial_mood s); repeat split; reflexivity.
  - cbn [run_ops fold_left]. fold (run_ops (apply_op s op) ops).
    destruct (IH (apply_op s op)) as (Hh & Hl & Hid & Hu & Hc & Hi & Hcur & Ha).
    cbv zeta. rewrite Hh, Hl, Hid, Hu, Hc, Hi, Hcur, Ha.
    destruct op as [role content now | now data | now];
      cbn [apply_op SM.add_message SM.record_mood SMgr.UserSession_end_session
           SM.conversation_history SM.mood_log SM.session_id SM.user_id
           SM.created_at SM.initial_mood SM.current_mood SM.session_active
           messages_of moods_of existsb is_end orb negb];
      rewrite <- ?app_assoc; cbn [app];
      try fold (mood_entry_of (now, data)).
    + repeat split; reflexivity.
    + repeat split; try reflexivity.
      * destruct (SM.initial_mood s); reflexivity.
      * rewrite last_cons. destruct (last (moods_of ops)); reflexivity.
    + rewrite andb_false_r. repeat split; reflexivity.
Qed.

(** X10. Whatever calls are made on a session, in whatever order, its
    conversation history and its mood log only grow at their ends, by the
    messages and snapshots of those calls in call order; session id, user id
    and creation time never change; and a summary counts exactly the messages
    and snapshots held. *)
Theorem session_logs_append_only (s : SM.UserSession) (ops : list session_op) :
  let s' := run_ops s ops in
  SM.conversation_history s' = SM.conversation_history s ++ messages_of ops /\
  SM.mood_log s' = SM.mood_log s ++ moods_of ops /\
  SM.session_id s' = SM.session_id s /\
  SM.user_id s' = SM.user_id s /\
  SM.created_at s' = SM.created_at s /\
  (forall sm, SMgr.get_summary s' = SM.Return sm ->
     SMgr.message_count sm =
       (length (SM.conversation_history s) + length (messages_of ops))%nat /\
     SMgr.mood_entries sm =
       (length (SM.mood_log s) + length (moods_of ops))%nat /\
     SMgr.summary_session_id sm = SM.session_id s).
Proof.
  intros s'.
  destruct (run_ops_spec s ops) as (Hh & Hl & Hid & Hu & Hc & _).
  fold s' in Hh, Hl, Hid, Hu, Hc.
  repeat (split; [assumption |]).
  intros sm Hsm. unfold SMgr.get_summary in Hsm.
  destruct (SM.get_mood_change s'); [| discriminate].
  injection Hsm as <-.
  cbn [SMgr.message_count SMgr.mood_entries SMgr.summary_session_id].
  rewrite Hh, Hl, Hid, !length_app. auto.
Qed.

(** X11. Under any calls the initial mood, once set, is never replaced (and
    is the first snapshot recorded when it was not set), the current mood is
    the last snapshot recorded, and a session that has been ended is never
    active again. *)
Theorem session_initial_mood_sticky (s : SM.UserSession) (ops : list session_op) :
  let s' := run_ops s ops in
  (forall m, SM.initial_mood s = Some m -> SM.initial_mood s' = Some m) /\
  (SM.initial_mood s = None -> SM.initial_mood s' = head (moods_of ops)) /\
  (forall e, last (moods_of ops) = Some e -> SM.current_mood s' = Some e) /\
  (moods_of ops = [] -> SM.current_mood s' = SM.current_mood s) /\
  (SM.session_active s = false -> SM.session_active s' = false) /\
  ((exists now, In (OpEndSession now) ops) -> SM.session_active s' = false).
Proof.
  intros s'.
  destruct (run_ops_spec s ops) as (_ & _ & _ & _ & _ & Hi & Hcur & Ha).
  fold s' in Hi, Hcur, Ha.
  split; [intros m Hm; rewrite Hi, Hm; reflexivity |].
  split; [intros Hn; rewrite Hi, Hn; reflexivity |].
  split; [intros e He; rewrite Hcur, He; reflexivity |].
  split; [intros Hn; rewrite Hcur, Hn; reflexivity |].
  split; [intros Hf; rewrite Ha, Hf; reflexivity |].
  intros [now Hin]. rewrite Ha.
  assert (He : existsb is_end ops = true).
  { apply existsb_exists. exists (OpEndSession now). auto. }
  rewrite He. apply andb_false_r.
Qed.

(** X12. On a fresh session, whatever messages are added and however the
    session is ended in between, [get_mood_change] compares the first and the
    last snapshot recorded: with scores [a] and [b] it reports the change
    [b - a], [improved] exactly when [b - a > 0], and the number of messages
    added; if either score is missing it raises, and so does the summary. *)
Theorem mood_change_under_interleaving (session_id user_id t0 : str)
    (ops : list session_op) (first latest : SM.mood_entry) :
  head (moods_of ops) = Some first ->
  last (moods_of ops) = Some latest ->
  let s := run_ops (SM.UserSession_init session_id user_id t0) ops in
  (forall a b,
     SM.sentiment_score first = Some a -> SM.sentiment_score latest = Some b ->
     SM.get_mood_change s =
       SM.Return (SM.MoodChange (SM.entry_emotion_category first)
                    (SM.entry_emotion_category latest) (b - a)
                    (Qlt_bool 0 (b - a)) (length (messages_of ops))) /\
     (Qlt_bool 0 (b - a) = true <-> 0 < b - a)) /\
  (SM.sentiment_score first = None \/ SM.sentiment_score latest = None ->
   SM.get_mood_change s = SM.RaiseTypeError /\
   SMgr.get_summary s = SM.RaiseTypeError).
Proof.
  intros Hfirst Hlast s.
  destruct (run_ops_spec (SM.UserSession_init session_id user_id t0) ops)
    as (Hh & _ & _ & _ & _ & Hi & Hcur & _).
  fold s in Hh, Hi, Hcur.
  cbn [SM.UserSession_init SM.initial_mood SM.current_mood
       SM.conversation_history app] in Hh, Hi, Hcur.
  rewrite Hfirst in Hi. rewrite Hlast in Hcur.
  split.
  - intros a b Ha Hb. split; [| apply Qlt_bool_iff].
    unfold SM.get_mood_change. rewrite Hi, Hcur, Ha, Hb, Hh. reflexivity.
  - intros Hnone.
    assert (Hraise : SM.get_mood_change s = SM.RaiseTypeError).
    { apply (get_mood_change_type_error s first latest Hi Hcur Hnone). }
    split; [exact Hraise |].
    unfold SMgr.get_summary. rewrite Hraise. reflexivity.
Qed.

Lemma mood_change_under_interleaving_witness :
  let ops := [OpRecordMood (lit "t1") (example_mood "negative" (-0.5));
              OpAddMessage (lit "user") (lit "hello") (lit "t2");
              OpAddMessage (lit "assistant") (lit "hi") (lit "t3");
              OpRecordMood (lit "t4") (example_mood "positive" 0.3);
              OpEndSession (lit "t5")] in
  SM.get_mood_change
    (run_ops (SM.UserSession_init (lit "s1") (lit "u1") (lit "t0")) ops) =
  SM.Return (SM.MoodChange (Some "negative"%string) (Some "positive"%string)
               (0.3 - -0.5) (Qlt_bool 0 (0.3 - -0.5)) 2).
Proof.
  intros ops.
  exact (proj1 (proj1 (mood_change_under_interleaving (lit "s1") (lit "u1")
                         (lit "t0") ops
                         (mood_entry_of (lit "t1", example_mood "negative" (-0.5)))
                         (mood_entry_of (lit "t4", example_mood "positive" 0.3))
                         eq_refl eq_refl)
                 (-0.5) 0.3 eq_refl eq_refl)).
Defined.

(** ** The session manager *)

Section SessionManagerFacts.
Import SessionManager.

Lemma dict_get_set_eq {V} (d : pydict V) (k : str) (v : V) :
  dict_get (dict_set d k v) k = Some v.
Proof.
  induction d as [| [k' v'] d IH]; cbn [dict_set dict_get].
  - rewrite bool_decide_eq_true_2 by reflexivity. reflexivity.
  - case_bool_decide as Hk; cbn [dict_get].
    + rewrite bool_decide_eq_true_2 by reflexivity. reflexivity.
    + rewrite bool_decide_eq_false_2 by exact Hk. exact IH.
Qed.

Lemma dict_get_set_ne {V} (d : pydict V) (k k0 : str) (v : V) :
  k0 <> k -> dict_get (dict_set d k v) k0 = dict_get d k0.
Proof.
  intros Hne. induction d as [| [k' v'] d IH]; cbn [dict_set dict_get].
  - rewrite bool_decide_eq_false_2 by congruence. reflexivity.
  - case_bool_decide as Hk; cbn [dict_get].
    + subst k'. rewrite !bool_decide_eq_false_2 by congruence. reflexivity.
    + rewrite IH. reflexivity.
Qed.

Lemma dict_get_del_eq {V} (d : pydict V) (k : str) :
  dict_get (dict_del d k) k = None.
Proof.
  unfold dict_del. induction d as [| [k' v'] d IH]; cbn [List.filter dict_get].
  - reflexivity.
  - case_bool_decide as Hk; cbn [negb dict_get]; [exact IH |].
    rewrite bool_decide_eq_false_2 by exact Hk. exact IH.
Qed.

Lemma dict_get_del_ne {V} (d : pydict V) (k k0 : str) :
  k0 <> k -> dict_get (dict_del d k) k0 = dict_get d k0.
Proof.
  intros Hne. unfold dict_del.
  induction d as [| [k' v'] d IH]; cbn [List.filter dict_get]; [reflexivity |].
  case_bool_decide as Hk; cbn [negb dict_get].
  - subst k'. rewrite bool_decide_eq_false_2 by congruence. exact IH.
  - rewrite IH. reflexivity.
Qed.

Lemma dict_del_absent {V} (d : pydict V) (k : str) :
  dict_get d k = None -> dict_del d k = d.
Proof.
  unfold dict_del. induction d as [| [k' v'] d IH]; cbn [List.filter dict_get];
    [reflexivity |].
  case_bool_decide as Hk; [discriminate |].
  intros Hn. cbn [negb]. rewrite (IH Hn). reflexivity.
Qed.

Lemma dict_get_In {V} (d : pydict V) (k : str) (v : V) :
  dict_get d k = Some v -> In (k, v) d.
Proof.
  induction d as [| [k' v'] d IH]; cbn [dict_get]; [discriminate |].
  case_bool_decide as Hk.
  - intros [= ->]. subst k'. left. reflexivity.
  - intros Hg. right. exact (IH Hg).
Qed.

Lemma dict_In_get {V} (d : pydict V) (k : str) (v : V) :
  NoDup (map fst d) -> In (k, v) d -> dict_get d k = Some v.
Proof.
  induction d as [| [k' v'] d IH]; cbn [map fst dict_get]; [intros _ [] |].
  intros Hnd [Heq | Hin].
  - injection Heq as -> ->. rewrite bool_decide_eq_true_2 by reflexivity.
    reflexivity.
  - apply NoDup_cons in Hnd as [Hk' Hnd].
    rewrite bool_decide_eq_false_2.
    + exact (IH Hnd Hin).
    + intros ->. apply Hk'. apply list_elem_of_In.
      apply in_map_iff. exists (k, v). auto.
Qed.

(** X13. [create_session] stores the new session under its id, where
    [get_session] finds it, and leaves the session stored under every other
    id as it was; the new session is active, carries the given user id (the
    generated one when none or an empty one is given), has empty logs and
    reports no mood change. With a fresh id, the sessions that were there
    keep their order and the new one comes last. *)
Theorem create_session_get (sessions : sessions_t)
    (uuid_session uuid_user now : str) (user_id : option str) :
  let r := create_session sessions uuid_session uuid_user now user_id in
  get_session r.1 uuid_session = Some r.2 /\
  (forall sid, sid <> uuid_session ->
     get_session r.1 sid = get_session sessions sid) /\
  SM.session_id r.2 = uuid_session /\
  SM.user_id r.2 = match user_id with
                   | Some (c :: u) => c :: u
                   | _ => uuid_user
                   end /\
  SM.session_active r.2 = true /\
  SM.conversation_history r.2 = [] /\
  SM.mood_log r.2 = [] /\
  SM.get_mood_change r.2 = SM.Return (SM.NoMood 0 false) /\
  (get_session sessions uuid_session = None ->
   r.1 = sessions ++ [(uuid_session, r.2)]).
Proof.
  intros r. subst r. unfold create_session, get_session.
  cbn [fst snd SM.UserSession_init SM.session_id].
  split; [apply dict_get_set_eq |].
  split; [intros sid Hne; apply dict_get_set_ne; exact Hne |].
  repeat (split; [reflexivity |]).
  intros Hnone. induction sessions as [| [k v] d IH]; [reflexivity |].
  cbn [dict_get] in Hnone. cbn [dict_set].
  case_bool_decide as Hk; [discriminate |].
  rewrite (IH Hnone). reflexivity.
Qed.

(** X14. [delete_session] answers [True] exactly when the id is stored;
    afterwards the id is not found, every other id is found as before, and a
    call that answers [False] changes nothing. *)
Theorem delete_session_get (sessions : sessions_t) (sid : str) :
  let r := delete_session sessions sid in
  (r.2 = true <-> is_Some (get_session sessions sid)) /\
  get_session r.1 sid = None /\
  (forall sid', sid' <> sid -> get_session r.1 sid' = get_session sessions sid') /\
  (r.2 = false -> r.1 = sessions).
Proof.
  intros r. subst r. unfold delete_session, get_session.
  destruct (dict_get sessions sid) as [s |] eqn:Hg; cbn [fst snd].
  - split; [split; [eauto | reflexivity] |].
    split; [apply dict_get_del_eq |].
    split; [intros sid' Hne; apply dict_get_del_ne; exact Hne | discriminate].
  - split; [split; [discriminate | intros [x Hx]; discriminate] |].
    split; [exact Hg |]. split; reflexivity.
Qed.

(** X15. [end_session] of the manager answers [True] exactly when the id is
    stored. The session then stays stored under its id, inactive and with the
    update time of the call, its logs and moods untouched; every other id is
    found as before; a call that answers [False] changes nothing. *)
Theorem manager_end_session_get (sessions : sessions_t) (now sid : str) :
  let r := end_session sessions now sid in
  (r.2 = true <-> is_Some (get_session sessions sid)) /\
  (forall s, get_session sessions sid = Some s ->
     exists s', get_session r.1 sid = Some s' /\
       SM.session_active s' = false /\
       SM.updated_at s' = now /\
       SM.conversation_history s' = SM.conversation_history s /\
       SM.mood_log s' = SM.mood_log s /\
       SM.initial_mood s' = SM.initial_mood s /\
       SM.current_mood s' = SM.current_mood s) /\
  (forall sid', sid' <> sid -> get_session r.1 sid' = get_session sessions sid') /\
  (r.2 = false -> r.1 = sessions).
Proof.
  intros r. subst r. unfold end_session, get_session.
  destruct (dict_get sessions sid) as [s |] eqn:Hg; cbn [fst snd].
  - split; [split; [eauto | reflexivity] |].
    split.
    + intros s0 [= <-]. eexists. split; [apply dict_get_set_eq |].
      repeat split; reflexivity.
    + split; [intros sid' Hne; apply dict_get_set_ne; exact Hne | discriminate].
  - split; [split; [discriminate | intros [x Hx]; discriminate] |].
    split; [discriminate |]. split; reflexivity.
Qed.

(** X16. [get_all_sessions] returns one summary per active session, in the
    order the sessions are stored, and none for a session that was ended; it
    raises exactly when the summary of some active session raises. *)
Theorem get_all_sessions_active (sessions : sessions_t) :
  (forall l, get_all_sessions sessions = SM.Return l ->
     Forall2 (fun s sm => get_summary s = SM.Return sm)
       (List.filter SM.session_active (map snd sessions)) l /\
     Forall (fun sm => summary_session_active sm = true) l) /\
  (get_all_sessions sessions = SM.RaiseTypeError <->
   exists s, In s (map snd sessions) /\ SM.session_active s = true /\
             get_summary s = SM.RaiseTypeError).
Proof.
  induction sessions as [| [k s] d [IHr IHe]]; cbn [get_all_sessions map snd].
  - split.
    + intros l [= <-]. split; constructor.
    + split; [discriminate | intros (s & [] & _)].
  - cbn [List.filter]. destruct (SM.session_active s) eqn:Hact.
    + destruct (get_summary s) as [sm |] eqn:Hsm.
      * destruct (get_all_sessions d) as [l' |] eqn:Hd.
        -- split.
           ++ intros l [= <-]. destruct (IHr l' eq_refl) as [HF2 HF].
              split; constructor; auto.
              unfold get_summary in Hsm.
              destruct (SM.get_mood_change s); [| discriminate].
              injection Hsm as <-. exact Hact.
           ++ split; [discriminate |].
              intros (s0 & [<- | Hin] & Ha & Hr); [congruence |].
              assert (Hex : SM.RaiseTypeError = SM.RaiseTypeError (A := list summary))
                by reflexivity.
              destruct IHe as [_ IHe]. discriminate IHe. eauto.
        -- split; [discriminate |].
           split; [| reflexivity]. intros _.
           destruct IHe as [IHe _]. destruct (IHe eq_refl) as (s0 & Hin & Ha & Hr).
           exists s0. split; [right; exact Hin | auto].
      * split; [discriminate |]. split; [| reflexivity].
        intros _. exists s. split; [left; reflexivity | auto].
    + split; [exact IHr |]. rewrite IHe. split.
      * intros (s0 & Hin & Ha & Hr). exists s0. split; [right; exact Hin | auto].
      * intros (s0 & [<- | Hin] & Ha & Hr); [congruence | eauto].
Qed.

Section Cleanup.
Context {dt : Datetime}.

Lemma fold_delete_filter (keys : list str) (sessions : sessions_t) :
  fold_left (fun sessions sid => (delete_session sessions sid).1) keys sessions =
  List.filter (fun '(k, _) => negb (bool_decide (k ∈ keys))) sessions.
Proof.
  revert sessions. induction keys as [| k keys IH]; intros sessions.
  - cbn [fold_left]. symmetry. apply forallb_filter_id.
    apply forallb_forall. intros [k v] _.
    rewrite bool_decide_eq_false_2 by apply not_elem_of_nil. reflexivity.
  - cbn [fold_left]. rewrite IH.
    assert (Hdel : (delete_session sessions k).1 = dict_del sessions k).
    { unfold delete_session.
      destruct (dict_get sessions k) eqn:Hg; [reflexivity |].
      symmetry. apply dict_del_absent. exact Hg. }
    rewrite Hdel. clear Hdel. unfold dict_del.
    induction sessions as [| [k' v'] d IHd]; [reflexivity |].
    cbn [List.filter].
    destruct (bool_decide (k' = k)) eqn:Hk; cbn [negb].
    + apply bool_decide_eq_true in Hk. subst k'.
      rewrite (bool_decide_eq_true_2 (k ∈ k :: keys))
        by (apply elem_of_cons; left; reflexivity).
      cbn [negb]. exact IHd.
    + apply bool_decide_eq_false in Hk. cbn [List.filter].
      rewrite IHd.
      destruct (bool_decide (k' ∈ keys)) eqn:Hin; cbn [negb].
      * apply bool_decide_eq_true in Hin.
        rewrite (bool_decide_eq_true_2 (k' ∈ k :: keys))
          by (apply elem_of_cons; right; exact Hin).
        reflexivity.
      * apply bool_decide_eq_false in Hin.
        rewrite (bool_decide_eq_false_2 (k' ∈ k :: keys)); [reflexivity |].
        rewrite elem_of_cons. intros [Heq | Hin']; [congruence | contradiction].
Qed.

(** X17. [cleanup_old_sessions] keeps exactly the sessions whose last update
    is not before the cutoff (the time of the call less the given hours), in
    their order and unchanged: an id is found afterwards exactly when it was
    stored with such a session. *)
Theorem cleanup_old_sessions_keeps_recent (sessions : sessions_t) (now : str)
    (max_age_hours : Z) :
  NoDup (map fst sessions) ->
  let cutoff := minus_hours now max_age_hours in
  cleanup_old_sessions sessions now max_age_hours =
    List.filter (fun entry => negb (stale cutoff entry)) sessions /\
  (forall sid,
     get_session (cleanup_old_sessions sessions now max_age_hours) sid =
     match get_session sessions sid with
     | Some s => if datetime_lt (SM.updated_at s) cutoff then None else Some s
     | None => None
     end).
Proof.
  intros Hnd cutoff.
  assert (Heq : cleanup_old_sessions sessions now max_age_hours =
                List.filter (fun entry => negb (stale cutoff entry)) sessions).
  { unfold cleanup_old_sessions. fold cutoff. rewrite fold_delete_filter.
    apply filter_ext_in. intros [k s] Hin. unfold stale. cbn [snd]. f_equal.
    destruct (datetime_lt (SM.updated_at s) cutoff) eqn:Hs.
    - apply bool_decide_eq_true_2. apply list_elem_of_In, in_map_iff.
      exists (k, s).
      split; [reflexivity |]. apply filter_In. split; [exact Hin | exact Hs].
    - apply bool_decide_eq_false_2. intros Hk.
      apply list_elem_of_In, in_map_iff in Hk as ([k' s'] & Hfst & Hin').
      cbn [fst] in Hfst. subst k'.
      apply filter_In in Hin' as [Hin' Hs'].
      pose proof (dict_In_get _ _ _ Hnd Hin) as Hg.
      pose proof (dict_In_get _ _ _ Hnd Hin') as Hg'.
      rewrite Hg in Hg'. injection Hg' as <-. rewrite Hs in Hs'. discriminate. }
  split; [exact Heq |].
  intros sid. rewrite Heq. unfold get_session. clear Heq.
  induction sessions as [| [k s] d IH]; [reflexivity |].
  cbn [map fst] in Hnd. apply NoDup_cons in Hnd as [Hk Hnd].
  cbn [List.filter dict_get]. unfold stale at 1. cbn [snd].
  destruct (bool_decide (k = sid)) eqn:Hks.
  - apply bool_decide_eq_true in Hks. subst k.
    destruct (datetime_lt (SM.updated_at s) cutoff); cbn [negb dict_get].
    + destruct (dict_get (List.filter _ d) sid) as [s' |] eqn:Hg; [| reflexivity].
      exfalso. apply Hk. apply dict_get_In in Hg. apply filter_In in Hg as [Hg _].
      apply list_elem_of_In. apply in_map_iff. exists (sid, s'). auto.
    + rewrite bool_decide_eq_true_2 by reflexivity. reflexivity.
  - destruct (datetime_lt (SM.updated_at s) cutoff); cbn [negb dict_get].
    + exact (IH Hnd).
    + rewrite Hks. exact (IH Hnd).
Qed.

End Cleanup.
End SessionManagerFacts.

Lemma cleanup_old_sessions_keeps_recent_witness :
  NoDup (map fst example_sessions) /\
  @SessionManager.cleanup_old_sessions example_datetime example_sessions [50%N] 24 =
    [(lit "b", SM.UserSession_init (lit "b") (lit "u2") [40%N])].
Proof.
  assert (Hnd : NoDup (map fst example_sessions)).
  { apply (bool_decide_unpack _). vm_compute. exact I. }
  split; [exact Hnd |].
  rewrite (proj1 (@cleanup_old_sessions_keeps_recent example_datetime
                    example_sessions [50%N] 24 Hnd)).
  reflexivity.
Defined.

(** ** The database *)

Lemma filter_length_snoc {A} (f : A -> bool) (l : list A) (x : A) :
  Z.of_nat (length (List.filter f (l ++ [x]))) =
  (Z.of_nat (length (List.filter f l)) + if f x then 1 else 0)%Z.
Proof.
  rewrite List.filter_app, length_app. cbn [List.filter].
  destruct (f x); cbn [length]; lia.
Qed.

Lemma create_user_consistent (db : UM.database) (now uid : str) :
  db_consistent db -> db_consistent (UM.create_user db now uid).
Proof.
  intros (Ht & Hm & Hu & Hs & Hq).
  unfold db_consistent, total_conversations_of, turns_of, moods_rows_of in *.
  cbn [UM.create_user UM.users UM.conversations UM.mood_tracking
       UM.chat_sessions UM.chat_sessions_seq].
  split; [| split; [exact Hm | split; [| split; [exact Hs | exact Hq]]]].
  - intros uid'. specialize (Ht uid').
    destruct (UM.users db !! uid) as [u |] eqn:Hlook; [exact Ht |].
    destruct (decide (uid = uid')) as [<- | Hne].
    + rewrite lookup_insert_eq. rewrite Hlook in Ht. exact Ht.
    + rewrite lookup_insert_ne by exact Hne. exact Ht.
  - intros uid' Hpos. specialize (Hu uid' Hpos).
    destruct (UM.users db !! uid) as [u |] eqn:Hlook; [exact Hu |].
    destruct (decide (uid = uid')) as [<- | Hne].
    + rewrite lookup_insert_eq. eauto.
    + rewrite lookup_insert_ne by exact Hne. exact Hu.
Qed.

Lemma create_user_stores (db : UM.database) (now uid : str) :
  is_Some (UM.users (UM.create_user db now uid) !! uid).
Proof.
  cbn [UM.create_user UM.users].
  destruct (UM.users db !! uid) as [u |] eqn:Hlook; [rewrite Hlook; eauto |].
  rewrite lookup_insert_eq. eauto.
Qed.

Lemma save_conversation_consistent (db : UM.database) (now_user now uid msg : str)
    (resp : crisis_handler.response) (er : emotion_classifier.EmotionResult)
    (sent : SentimentResult) :
  db_consistent db ->
  db_consistent (UM.save_conversation db now_user now uid msg resp er sent).1.
Proof.
  intros Hdb.
  pose proof (create_user_consistent db now_user uid Hdb) as (Ht & Hm & Hu & Hs & Hq).
  pose proof (create_user_stores db now_user uid) as [u Hlook].
  unfold UM.save_conversation. cbn [fst].
  set (db1 := UM.create_user db now_user uid) in *.
  unfold db_consistent, total_conversations_of, turns_of, moods_rows_of in *.
  cbn [UM.users UM.conversations UM.mood_tracking UM.chat_sessions
       UM.chat_sessions_seq].
  rewrite Hlook.
  split; [| split; [| split; [| split; [exact Hs | exact Hq]]]].
  - intros uid'. rewrite filter_length_snoc. cbn [UM.conv_user_id].
    specialize (Ht uid'). destruct (decide (uid = uid')) as [<- | Hne].
    + rewrite lookup_insert_eq. cbn [UM.total_conversations].
      rewrite bool_decide_eq_true_2 by reflexivity.
      rewrite Hlook in Ht. lia.
    + rewrite lookup_insert_ne by exact Hne.
      rewrite bool_decide_eq_false_2 by exact Hne. lia.
  - intros uid'. rewrite !filter_length_snoc.
    cbn [UM.conv_user_id UM.mood_user_id]. specialize (Hm uid'). lia.
  - intros uid' Hpos. destruct (decide (uid = uid')) as [<- | Hne].
    + rewrite lookup_insert_eq. eauto.
    + rewrite lookup_insert_ne by exact Hne. apply Hu.
      rewrite filter_length_snoc in Hpos. cbn [UM.conv_user_id] in Hpos.
      rewrite bool_decide_eq_false_2 in Hpos by exact Hne. lia.
Qed.

Lemma start_chat_session_consistent (db : UM.database) (now uid : str)
    (ie : option str) (isent : option Q) :
  db_consistent db -> db_consistent (UM.start_chat_session db now uid ie isent).1.
Proof.
  intros (Ht & Hm & Hu & Hs & Hq).
  unfold db_consistent, total_conversations_of, turns_of, moods_rows_of in *.
  cbn [UM.start_chat_session fst UM.users UM.conversations UM.mood_tracking
       UM.chat_sessions UM.chat_sessions_seq].
  repeat (split; [assumption |]). split; [| lia].
  intros sid row. destruct (decide (UM.chat_sessions_seq db + 1 = sid)%Z) as [<- | Hne].
  - intros _. lia.
  - rewrite lookup_insert_ne by exact Hne. intros Hrow.
    specialize (Hs sid row Hrow). lia.
Qed.

Lemma end_chat_session_consistent (db : UM.database) (now : str) (sid : Z)
    (fe : option str) (fs : option Q) :
  db_consistent db -> db_consistent (UM.end_chat_session db now sid fe fs).1.
Proof.
  intros Hdb. unfold UM.end_chat_session.
  destruct (UM.chat_sessions db !! sid) as [row |] eqn:Hrow; [| exact Hdb].
  destruct fs as [f |]; [| exact Hdb].
  destruct (UM.initial_sentiment row) as [i |]; [| exact Hdb].
  destruct Hdb as (Ht & Hm & Hu & Hs & Hq).
  unfold db_consistent, total_conversations_of, turns_of, moods_rows_of in *.
  cbn [fst UM.users UM.conversations UM.mood_tracking UM.chat_sessions
       UM.chat_sessions_seq].
  repeat (split; [assumption |]). split; [| exact Hq].
  intros sid' row'. destruct (decide (sid = sid')) as [<- | Hne].
  - intros _. exact (Hs sid row Hrow).
  - rewrite lookup_insert_ne by exact Hne. apply Hs.
Qed.

Lemma db_apply_consistent (db : UM.database) (op : db_op) :
  db_consistent db -> db_consistent (db_apply db op).
Proof.
  destruct op; cbn [db_apply].
  - apply create_user_consistent.
  - apply save_conversation_consistent.
  - apply start_chat_session_consistent.
  - apply end_chat_session_consistent.
Qed.

Lemma empty_database_consistent : db_consistent UM.empty_database.
Proof.
  unfold db_consistent, total_conversations_of, turns_of, moods_rows_of.
  cbn [UM.empty_database UM.users UM.conversations UM.mood_tracking
       UM.chat_sessions UM.chat_sessions_seq List.filter length].
  split; [intros uid; rewrite lookup_empty; reflexivity |].
  split; [reflexivity |].
  split; [intros uid Hpos; cbn in Hpos; lia |].
  split; [| lia].
  intros sid row Hrow. rewrite lookup_empty in Hrow. discriminate.
Qed.

Lemma db_run_consistent (db : UM.database) (ops : list db_op) :
  db_consistent db -> db_consistent (db_run db ops).
Proof.
  revert db. induction ops as [| op ops IH]; intros db Hdb; [exact Hdb |].
  cbn [db_run fold_left]. apply IH. apply db_apply_consistent. exact Hdb.
Qed.

(** X18. In every state the database reaches from the empty one through
    [create_user], [save_conversation], [start_chat_session] and
    [end_chat_session], the counter [total_conversations] of each user equals
    the number of turns stored for that user (0 for an unknown user), the mood
    table holds as many rows of the user as the conversation table, and every
    user with a stored turn has a user row. *)
Theorem database_counters_agree (ops : list db_op) (uid : str) :
  let db := db_run UM.empty_database ops in
  total_conversations_of db uid = turns_of db uid /\
  moods_rows_of db uid = turns_of db uid /\
  ((0 < turns_of db uid)%Z -> is_Some (UM.users db !! uid)).
Proof.
  intros db.
  destruct (db_run_consistent UM.empty_database ops empty_database_consistent)
    as (Ht & Hm & Hu & _).
  fold db in Ht, Hm, Hu. auto.
Qed.

(** X19. In every such state [start_chat_session] hands out an id that no
    stored session has, larger than every id in use, stores the new session
    there with the given initial mood and no end, and leaves every stored
    session as it was. *)
Theorem start_chat_session_fresh (ops : list db_op) (now uid : str)
    (initial_emotion : option str) (initial_sentiment : option Q) :
  let db := db_run UM.empty_database ops in
  let r := UM.start_chat_session db now uid initial_emotion initial_sentiment in
  exists sid row,
    r.2 = Some sid /\
    UM.chat_sessions db !! sid = None /\
    (forall sid' row', UM.chat_sessions db !! sid' = Some row' ->
       (sid' < sid)%Z /\ UM.chat_sessions r.1 !! sid' = Some row') /\
    UM.chat_sessions r.1 !! sid = Some row /\
    UM.user_id row = uid /\
    UM.initial_emotion row = initial_emotion /\
    UM.initial_sentiment row = initial_sentiment /\
    UM.session_end row = None /\
    UM.mood_improvement row = None.
Proof.
  intros db r.
  destruct (db_run_consistent UM.empty_database ops empty_database_consistent)
    as (_ & _ & _ & Hs & Hq).
  fold db in Hs, Hq. subst r. unfold UM.start_chat_session. cbn [fst snd].
  eexists _, _. split; [reflexivity |].
  cbn [UM.chat_sessions].
  split.
  { destruct (UM.chat_sessions db !! (UM.chat_sessions_seq db + 1)%Z) as [row |] eqn:Hrow;
      [| reflexivity].
    specialize (Hs _ _ Hrow). lia. }
  split.
  { intros sid' row' Hrow'. specialize (Hs _ _ Hrow').
    split; [lia |]. rewrite lookup_insert_ne by lia. exact Hrow'. }
  split; [apply lookup_insert_eq |].
  repeat split; reflexivity.
Qed.


Lemma end_chat_session_found (db : UM.database) (now : str) (sid : Z)
    (fe : option str) (f i : Q) (row : UM.chat_session_row) :
  UM.chat_sessions db !! sid = Some row ->
  UM.initial_sentiment row = Some i ->
  UM.end_chat_session db now sid fe (Some f) =
  ({| UM.users := UM.users db;
      UM.conversations := UM.conversations db;
      UM.mood_tracking := UM.mood_tracking db;
      UM.chat_sessions :=
        <[sid := {| UM.user_id := UM.user_id row;
                    UM.session_start := UM.session_start row;
                    UM.session_end := Some now;
                    UM.initial_emotion := UM.initial_emotion row;
                    UM.initial_sentiment := Some i;
                    UM.final_emotion := fe;
                    UM.final_sentiment := Some f;
                    UM.mood_improvement := Some (f - i);
                    UM.message_count := UM.message_count row |}]>
          (UM.chat_sessions db);
      UM.chat_sessions_seq := UM.chat_sessions_seq db |},
   Some {| UM.improvement := f - i;
           UM.improved := Qlt_bool 0.1 (f - i);
           UM.stable := Qle_bool (-0.1) (f - i) && Qle_bool (f - i) 0.1;
           UM.declined := Qlt_bool (f - i) (-0.1) |}).
Proof.
  intros Hrow Hi. unfold UM.end_chat_session. rewrite Hrow, Hi. reflexivity.
Qed.

(** X21. A session can be ended again: the second call overwrites the final
    mood and the improvement of the row, and measures the improvement from the
    initial sentiment the row has kept. *)
Theorem end_chat_session_again (db : UM.database) (t1 t2 : str) (sid : Z)
    (fe1 fe2 : option str) (f1 f2 i : Q) (row : UM.chat_session_row) :
  UM.chat_sessions db !! sid = Some row ->
  UM.initial_sentiment row = Some i ->
  let db1 := (UM.end_chat_session db t1 sid fe1 (Some f1)).1 in
  let r := UM.end_chat_session db1 t2 sid fe2 (Some f2) in
  exists res row2,
    r.2 = Some res /\
    UM.improvement res = f2 - i /\
    UM.chat_sessions r.1 !! sid = Some row2 /\
    UM.initial_sentiment row2 = Some i /\
    UM.final_sentiment row2 = Some f2 /\
    UM.final_emotion row2 = fe2 /\
    UM.mood_improvement row2 = Some (f2 - i) /\
    UM.session_end row2 = Some t2 /\
    UM.session_start row2 = UM.session_start row.
Proof.
  intros Hrow Hi db1 r. subst r db1.
  rewrite (end_chat_session_found db t1 sid fe1 f1 i row Hrow Hi). cbn [fst].
  erewrite end_chat_session_found;
    [| cbn [UM.chat_sessions]; apply lookup_insert_eq | reflexivity].
  cbn [fst snd UM.chat_sessions UM.user_id UM.session_start UM.initial_emotion
       UM.message_count].
  eexists _, _. split; [reflexivity |].
  split; [reflexivity |]. split; [apply lookup_insert_eq |].
  repeat split; reflexivity.
Qed.

(** Whenever [end_chat_session] returns a result, exactly one of its
    flags [improved], [stable] and [declined] is set. *)
Theorem end_chat_session_one_flag (db : UM.database) (now : str) (sid : Z)
    (fe : option str) (fs : option Q) (res : UM.session_end_result) :
  (UM.end_chat_session db now sid fe fs).2 = Some res ->
  In (UM.improved res, UM.stable res, UM.declined res)
    [(true, false, false); (false, true, false); (false, false, true)].
Proof.
  unfold UM.end_chat_session.
  destruct (UM.chat_sessions db !! sid) as [row |]; [| discriminate].
  destruct fs as [f |]; [| discriminate].
  destruct (UM.initial_sentiment row) as [i |]; [| discriminate].
  cbn [snd]. intros [= <-].
  cbn [UM.improved UM.stable UM.declined].
  qcases; cbn [andb]; try (exfalso; lra); simpl; auto.
Qed.

Lemma end_chat_session_again_witness :
  let r := UM.end_chat_session
             (UM.end_chat_session example_database (lit "t1") 1 None (Some 0.1)).1
             (lit "t2") 1 (Some (lit "joy")) (Some 0.5) in
  exists res, r.2 = Some res /\ UM.improvement res = 0.5 - 0.2.
Proof.
  intros r.
  destruct (end_chat_session_again example_database (lit "t1") (lit "t2") 1
              None (Some (lit "joy")) 0.1 0.5 0.2 _
              (lookup_insert_eq (UM.chat_sessions UM.empty_database) 1%Z _)
              eq_refl)
    as (res & row2 & Hres & Himp & _).
  exists res. split; [exact Hres | exact Himp].
Defined.

Lemma end_chat_session_one_flag_witness :
  exists res,
    (UM.end_chat_session example_database (lit "t1") 1 None (Some 0.25)).2 =
      Some res /\
    In (UM.improved res, UM.stable res, UM.declined res)
      [(true, false, false); (false, true, false); (false, false, true)].
Proof.
  eexists. split; [reflexivity |].
  exact (end_chat_session_one_flag example_database (lit "t1") 1 None (Some 0.25)
           _ eq_refl).
Defined.

Lemma end_chat_session_without_number_witness :
  UM.chat_sessions example_database_null !! 1%Z <> None /\
  UM.end_chat_session example_database_null (lit "t1") 1 None (Some 0.5) =
    (example_database_null, None).
Proof.
  split; [vm_compute; discriminate |].
  exact (end_chat_session_without_number example_database_null (lit "t1") 1 None
           (Some 0.5) _
           (lookup_insert_eq (UM.chat_sessions UM.empty_database) 1%Z _)
           (or_introl eq_refl)).
Defined.

(** ** What a processed message leaves in the database *)

Section OrchestratorPersistence.
Context {rt : PyRuntime} {sc : Scorers} {md : emotion_classifier.Models}.

Lemma process_user_message_persists_turn_aux
    (self : HC.HybridMentalHealthChatbot)
    (now_analysis now_user now_turn user_id user_message : str) :
  UM.conversations
    (HC.db (HC.process_user_message self now_analysis now_user now_turn
              user_id user_message).1.1) =
  UM.conversations (HC.db self) ++
  [{| UM.conv_user_id := user_id;
      UM.user_message := user_message;
      UM.bot_response :=
        HC.response (HC.process_user_message self now_analysis now_user
                       now_turn user_id user_message).1.2;
      UM.conv_emotion :=
        emotion_classifier.primary_emotion
          (emotion_classifier.classify_emotion user_message);
      UM.emotion_confidence :=
        emotion_classifier.confidence
          (emotion_classifier.classify_emotion user_message);
      UM.conv_sentiment_score :=
        combined_sentiment_score
          (analyze_sentiment now_analysis (PyStr user_message)).1;
      UM.is_crisis :=
        if crisis_detected (analyze_sentiment now_analysis (PyStr user_message)).1
        then 1%Z else 0%Z;
      UM.conv_timestamp := now_turn |}].
Proof.
  rewrite process_user_message_spec. reflexivity.
Qed.

(** X22. A processed message adds exactly one turn and one mood row, both
    carrying the combined score of the analysis and the label of the
    classifier as it came (the label returned to the caller may be overridden,
    the stored one is not); the turn holds the message and the response
    returned; the user's counter grows by one; no chat session is touched. *)
Theorem process_user_message_persists_turn
    (self : HC.HybridMentalHealthChatbot)
    (now_analysis now_user now_turn user_id user_message : str) :
  let out := (HC.process_user_message self now_analysis now_user now_turn
                user_id user_message).1 in
  let r := out.2 in
  let label := emotion_classifier.primary_emotion
                 (emotion_classifier.classify_emotion user_message) in
  UM.conversations (HC.db out.1) =
    UM.conversations (HC.db self) ++
    [{| UM.conv_user_id := user_id;
        UM.user_message := user_message;
        UM.bot_response := HC.response r;
        UM.conv_emotion := label;
        UM.emotion_confidence := HC.result_emotion_confidence r;
        UM.conv_sentiment_score := combined_sentiment_score (HC.sentiment r);
        UM.is_crisis := if crisis_detected (HC.sentiment r) then 1%Z else 0%Z;
        UM.conv_timestamp := now_turn |}] /\
  UM.mood_tracking (HC.db out.1) =
    UM.mood_tracking (HC.db self) ++
    [{| UM.mood_user_id := user_id;
        UM.mood_emotion := label;
        UM.mood_sentiment_score := combined_sentiment_score (HC.sentiment r);
        UM.mood_timestamp := now_turn |}] /\
  total_conversations_of (HC.db out.1) user_id =
    (total_conversations_of (HC.db self) user_id + 1)%Z /\
  (forall uid, uid <> user_id ->
     UM.users (HC.db out.1) !! uid = UM.users (HC.db self) !! uid) /\
  UM.chat_sessions (HC.db out.1) = UM.chat_sessions (HC.db self) /\
  HC.the_crisis_handler out.1 = HC.the_crisis_handler self.
Proof.
  intros out r label. subst r out. rewrite process_user_message_spec.
  cbv zeta.
  cbn [fst snd HC.db HC.response HC.sentiment HC.result_emotion_confidence
       HC.the_crisis_handler].
  unfold UM.save_conversation. cbn [fst UM.conversations UM.mood_tracking
                                      UM.chat_sessions UM.users].
  split; [reflexivity |]. split; [reflexivity |].
  unfold total_conversations_of. cbn [UM.users UM.create_user].
  split; [| split; [| split; reflexivity]].
  - destruct (UM.users (HC.db self) !! user_id) as [u |] eqn:Hu.
    + rewrite Hu, lookup_insert_eq. reflexivity.
    + rewrite !lookup_insert_eq. reflexivity.
  - intros uid Hne.
    destruct (UM.users (HC.db self) !! user_id) as [u |] eqn:Hu.
    + rewrite Hu, lookup_insert_ne by congruence. reflexivity.
    + rewrite lookup_insert_eq, !lookup_insert_ne by congruence. reflexivity.
Qed.

(** X23. The crisis count of a user grows by one with a processed message of
    that user exactly when the analyzer's phrase check fires on it; whether
    the orchestrator escalated plays no part, and the counts of other users
    stay. *)
Theorem crisis_count_after_message (self : HC.HybridMentalHealthChatbot)
    (now_analysis now_user now_turn user_id user_message uid : str) :
  let out := (HC.process_user_message self now_analysis now_user now_turn
                user_id user_message).1 in
  UQ.get_crisis_count (HC.db out.1) uid =
  (UQ.get_crisis_count (HC.db self) uid +
   if bool_decide (user_id = uid) && analyzer_check now_analysis user_message
   then 1 else 0)%Z.
Proof.
  intros out.
  pose proof (process_user_message_persists_turn_aux self now_analysis now_user
              now_turn user_id user_message) as Hconv.
  subst out. unfold UQ.get_crisis_count. rewrite Hconv.
  rewrite filter_length_snoc. cbn [UM.conv_user_id UM.is_crisis].
  unfold analyzer_check.
  destruct (bool_decide (user_id = uid)); cbn [andb]; [| reflexivity].
  destruct (crisis_detected _); reflexivity.
Qed.

End OrchestratorPersistence.

(** ** The aggregate queries *)





Lemma filter_length_le {A} (f : A -> bool) (l : list A) :
  (length (List.filter f l) <= length l)%nat.
Proof.
  induction l as [| x l IH]; cbn [List.filter length]; [lia |].
  destruct (f x); cbn [length]; lia.
Qed.

Lemma filter_disjoint_length {A} (f g : A -> bool) (l : list A) :
  (forall x, f x && g x = false) ->
  (length (List.filter f l) + length (List.filter g l) <= length l)%nat.
Proof.
  intros Hfg. induction l as [| x l IH]; cbn [List.filter length]; [lia |].
  specialize (Hfg x). destruct (f x), (g x); cbn [length]; try discriminate; lia.
Qed.

Lemma case_improved_declined (row : UM.chat_session_row) :
  UQ.case_improved row && UQ.case_declined row = false.
Proof.
  unfold UQ.case_improved, UQ.case_declined.
  destruct (UM.mood_improvement row) as [m |]; [| reflexivity].
  qcases; try reflexivity. exfalso; lra.
Qed.

(** X25. The improvement statistics of a user are coherent: the sessions
    counted as improved and as declined are disjoint and together at most the
    total; the improvement rate is the share of improved sessions in percent,
    between 0 and 100; and a user without sessions gets zeros throughout. *)
Theorem mood_improvement_stats_coherent (db : UM.database) (uid : str) :
  let st := UQ.get_mood_improvement_stats db uid in
  (0 <= UQ.sessions_improved st)%Z /\
  (0 <= UQ.sessions_declined st)%Z /\
  (UQ.sessions_improved st + UQ.sessions_declined st <= UQ.total_sessions st)%Z /\
  0 <= UQ.improvement_rate st <= 100 /\
  ((0 < UQ.total_sessions st)%Z ->
   UQ.improvement_rate st ==
     inject_Z (UQ.sessions_improved st) / inject_Z (UQ.total_sessions st) * 100) /\
  (UQ.total_sessions st = 0%Z ->
   UQ.sessions_improved st = 0%Z /\ UQ.sessions_declined st = 0%Z /\
   UQ.improvement_rate st = 0 /\ UQ.average_improvement st = 0).
Proof.
  intros st. subst st. unfold UQ.get_mood_improvement_stats. cbv zeta.
  cbn [UQ.sessions_improved UQ.sessions_declined UQ.total_sessions
       UQ.improvement_rate UQ.average_improvement].
  set (rows := UQ.sessions_of db uid).
  pose proof (filter_length_le UQ.case_improved rows) as Hi.
  pose proof (filter_disjoint_length UQ.case_improved UQ.case_declined rows
                case_improved_declined) as Hd.
  split; [lia |]. split; [lia |]. split; [lia |].
  split; [| split].
  - destruct (0 <? Z.of_nat (length rows))%Z eqn:Hpos; [| lra].
    apply Z.ltb_lt in Hpos.
    set (a := inject_Z (Z.of_nat (length (List.filter UQ.case_improved rows)))).
    set (t := inject_Z (Z.of_nat (length rows))).
    assert (Ht : 0 < t).
    { subst t. change 0 with (inject_Z 0). rewrite <- Zlt_Qlt. exact Hpos. }
    assert (Ha : 0 <= a <= t).
    { subst a t. change 0 with (inject_Z 0). rewrite <- !Zle_Qle. lia. }
    assert (Hq : 0 <= a / t <= 1).
    { split.
      - apply Qle_shift_div_l; [exact Ht | lra].
      - apply Qle_shift_div_r; [exact Ht | lra]. }
    lra.
  - intros Hpos. apply Z.ltb_lt in Hpos. rewrite Hpos. reflexivity.
  - intros Hz. assert (Hnil : rows = []).
    { destruct rows; [reflexivity | cbn [length] in Hz; lia]. }
    rewrite Hnil. repeat split; reflexivity.
Qed.

Lemma filter_length_perm {A} (f : A -> bool) (l l' : list A) :
  l ≡ₚ l' -> length (List.filter f l) = length (List.filter f l').
Proof.
  induction 1 as [| x l l' _ IH | x y l | l l' l'' _ IH1 _ IH2];
    cbn [List.filter].
  - reflexivity.
  - destruct (f x); cbn [length]; lia.
  - destruct (f x), (f y); reflexivity.
  - lia.
Qed.

Lemma filter_filter_length {A} (f g : A -> bool) (l : list A) :
  length (List.filter f (List.filter g l)) =
  length (List.filter (fun x => g x && f x) l).
Proof.
  induction l as [| x l IH]; cbn [List.filter]; [reflexivity |].
  destruct (g x); cbn [List.filter andb]; [| exact IH].
  destruct (f x); cbn [length]; lia.
Qed.

(** Counting the rows of a user that satisfy [p], before and after the row of
    one id is replaced. *)
Lemma sessions_count_insert (m : gmap Z UM.chat_session_row) (sid : Z)
    (row row' : UM.chat_session_row) (p : UM.chat_session_row -> bool) :
  m !! sid = Some row ->
  (Z.of_nat (length (List.filter p (map snd (map_to_list (<[sid := row']> m))))) +
   (if p row then 1 else 0) =
   Z.of_nat (length (List.filter p (map snd (map_to_list m)))) +
   (if p row' then 1 else 0))%Z.
Proof.
  intros Hrow.
  assert (H1 : map snd (map_to_list m) ≡ₚ
               row :: map snd (map_to_list (delete sid m))).
  { rewrite <- (map_to_list_delete m sid row Hrow). reflexivity. }
  assert (H2 : map snd (map_to_list (<[sid := row']> m)) ≡ₚ
               row' :: map snd (map_to_list (delete sid m))).
  { rewrite <- (insert_delete_eq m sid row').
    rewrite (map_to_list_insert (delete sid m) sid row')
      by apply lookup_delete_eq.
    reflexivity. }
  rewrite (filter_length_perm p _ _ H1), (filter_length_perm p _ _ H2).
  cbn [List.filter]. destruct (p row), (p row'); cbn [length]; lia.
Qed.

(** X26. Ending a session that has not been ended before moves the
    statistics of its user as the returned flags say: the total stays, the
    count of improved sessions grows by one exactly when the result is flagged
    [improved], the count of declined sessions exactly when it is flagged
    [declined]; the counts of every other user stay as they were. *)
Theorem stats_after_end_session (db : UM.database) (now : str) (sid : Z)
    (fe : option str) (f i : Q) (row : UM.chat_session_row) :
  UM.chat_sessions db !! sid = Some row ->
  UM.initial_sentiment row = Some i ->
  UM.mood_improvement row = None ->
  let r := UM.end_chat_session db now sid fe (Some f) in
  exists res,
    r.2 = Some res /\
    (forall uid,
       let st := UQ.get_mood_improvement_stats db uid in
       let st' := UQ.get_mood_improvement_stats r.1 uid in
       UQ.total_sessions st' = UQ.total_sessions st /\
       UQ.sessions_improved st' =
         (UQ.sessions_improved st +
          if bool_decide (UM.user_id row = uid) && UM.improved res
          then 1 else 0)%Z /\
       UQ.sessions_declined st' =
         (UQ.sessions_declined st +
          if bool_decide (UM.user_id row = uid) && UM.declined res
          then 1 else 0)%Z).
Proof.
  intros Hrow Hi Hnone r. subst r.
  rewrite (end_chat_session_found db now sid fe f i row Hrow Hi).
  cbn [fst snd]. eexists. split; [reflexivity |].
  intros uid. cbv zeta.
  unfold UQ.get_mood_improvement_stats, UQ.sessions_of. cbv zeta.
  cbn [UQ.total_sessions UQ.sessions_improved UQ.sessions_declined
       UM.chat_sessions UM.improved UM.declined].
  rewrite !filter_filter_length.
  set (row' := {| UM.user_id := UM.user_id row |}).
  pose proof (sessions_count_insert (UM.chat_sessions db) sid row row'
                (fun r => bool_decide (UM.user_id r = uid)) Hrow) as Ht.
  pose proof (sessions_count_insert (UM.chat_sessions db) sid row row'
                (fun r => bool_decide (UM.user_id r = uid) && UQ.case_improved r)
                Hrow) as Him.
  pose proof (sessions_count_insert (UM.chat_sessions db) sid row row'
                (fun r => bool_decide (UM.user_id r = uid) && UQ.case_declined r)
                Hrow) as Hde.
  cbv beta in Ht, Him, Hde.
  unfold UQ.case_improved, UQ.case_declined in Him, Hde.
  rewrite Hnone in Him, Hde.
  subst row'. cbn [UM.user_id UM.mood_improvement] in Ht, Him, Hde.
  rewrite andb_false_r in Him, Hde.
  split; [| split].
  - destruct (bool_decide (UM.user_id row = uid)); lia.
  - unfold UQ.case_improved.
    destruct (bool_decide (UM.user_id row = uid) && Qlt_bool 0.1 (f - i)); lia.
  - unfold UQ.case_declined.
    destruct (bool_decide (UM.user_id row = uid) && Qlt_bool (f - i) (-0.1)); lia.
Qed.

Lemma stats_after_end_session_witness :
  let r := UM.end_chat_session example_database (lit "t9") 1 None (Some 0.5) in
  UQ.sessions_improved (UQ.get_mood_improvement_stats r.1 (lit "u1")) =
  (UQ.sessions_improved (UQ.get_mood_improvement_stats example_database (lit "u1"))
   + 1)%Z.
Proof.
  intros r.
  destruct (stats_after_end_session example_database (lit "t9") 1 None 0.5 0.2 _
              (lookup_insert_eq (UM.chat_sessions UM.empty_database) 1%Z _)
              eq_refl eq_refl)
    as (res & Hres & Hst).
  injection Hres as <-.
  destruct (Hst (lit "u1")) as (_ & Him & _).
  exact Him.
Defined.

(** ** Topic and emotion override of the orchestrator *)

(** Membership in a list that is written out. *)
Ltac in_list := repeat (first [left; reflexivity | right]).

Section TopicAndEmotion.
Context {rt : PyRuntime}.

Lemma find_first_match {A} (p : A -> bool) (before after : list A) (x : A) :
  (forall y, In y before -> p y = false) -> p x = true ->
  find p (before ++ x :: after) = Some x.
Proof.
  intros Hb Hx. induction before as [| y before IH]; cbn [app find].
  - rewrite Hx. reflexivity.
  - rewrite (Hb y) by (left; reflexivity).
    apply IH. intros z Hz. apply Hb. right. exact Hz.
Qed.

Lemma extract_topic_find (user_message : str) :
  HC._extract_topic user_message =
  match find (topic_matches (str_lower user_message)) HC.topic_keywords with
  | Some entry => lit entry.1
  | None => lit "general"
  end.
Proof.
  unfold HC._extract_topic.
  assert (Hext : forall l,
    find (fun '(topic, keywords) =>
            existsb (fun keyword => contains (lit keyword) (str_lower user_message))
              keywords) l =
    find (topic_matches (str_lower user_message)) l).
  { induction l as [| [t ks] l IH]; [reflexivity |].
    cbn [find]. unfold topic_matches at 1. cbn [snd]. rewrite IH. reflexivity. }
  rewrite Hext.
  destruct (find _ HC.topic_keywords) as [[t ks] |]; reflexivity.
Qed.

(** X27. The topic of a message is that of the first entry of the topic table
    one of whose keywords occurs in the lowered message, whatever later
    entries match as well; it is "general" exactly when no keyword of the
    table occurs. *)
Theorem extract_topic_first_match (user_message : str) :
  (forall before entry after,
     HC.topic_keywords = before ++ entry :: after ->
     (forall e, In e before -> topic_matches (str_lower user_message) e = false) ->
     topic_matches (str_lower user_message) entry = true ->
     HC._extract_topic user_message = lit entry.1) /\
  ((forall e, In e HC.topic_keywords ->
      topic_matches (str_lower user_message) e = false) <->
   HC._extract_topic user_message = lit "general") /\
  (exists t, In t ["exam"; "job"; "relationship"; "family"; "health"; "money";
                   "social"; "school"; "general"]%string /\
             HC._extract_topic user_message = lit t).
Proof.
  rewrite extract_topic_find. split; [| split].
  - intros before entry after Htab Hb He. rewrite Htab.
    rewrite (find_first_match _ before after entry Hb He). reflexivity.
  - split.
    + intros Hnone.
      destruct (find _ HC.topic_keywords) as [e |] eqn:Hf; [| reflexivity].
      apply find_some in Hf as [Hin He]. rewrite (Hnone e Hin) in He. discriminate.
    + destruct (find _ HC.topic_keywords) as [e |] eqn:Hf.
      * apply find_some in Hf as [Hin _]. intros Heq. exfalso.
        assert (Hall : forallb (fun e : string * list string =>
                          negb (bool_decide (lit e.1 = lit "general")))
                         HC.topic_keywords = true) by (vm_compute; reflexivity).
        rewrite forallb_forall in Hall. specialize (Hall e Hin).
        rewrite Heq in Hall. rewrite bool_decide_eq_true_2 in Hall by reflexivity.
        discriminate.
      * intros _ e Hin. exact (find_none _ _ Hf e Hin).
  - destruct (find _ HC.topic_keywords) as [e |] eqn:Hf.
    + apply find_some in Hf as [Hin _]. exists e.1. split; [| reflexivity].
      assert (Hall : forallb (fun e : string * list string =>
                existsb (String.eqb e.1)
                  ["exam"; "job"; "relationship"; "family"; "health";
                   "money"; "social"; "school"; "general"]%string)
               HC.topic_keywords = true) by (vm_compute; reflexivity).
      rewrite forallb_forall in Hall. specialize (Hall e Hin).
      apply existsb_exists in Hall as (t & Ht & Heq).
      apply String.eqb_eq in Heq. rewrite Heq. exact Ht.
    + exists "general"%string. split; [| reflexivity].
      do 8 right. left. reflexivity.
Qed.

Lemma match_emotion_no_trigger (detected user_message : str) :
  (forall w, In w emotion_triggers ->
             contains (lit w) (str_lower user_message) = false) ->
  HC._match_emotion_precisely detected user_message =
  match detected with
  | [] => lit "neutral"
  | _ => detected
  end.
Proof.
  intros Hnone. unfold HC._match_emotion_precisely. cbv zeta.
  rewrite !Hnone by in_list. reflexivity.
Qed.

Lemma match_emotion_trigger (detected user_message : str) :
  (exists w, In w emotion_triggers /\
             contains (lit w) (str_lower user_message) = true) ->
  In (HC._match_emotion_precisely detected user_message)
     (map lit ["anxiety"; "sadness"; "anger"; "fear"; "joy"]%string) /\
  HC._match_emotion_precisely detected user_message =
  HC._match_emotion_precisely [] user_message.
Proof.
  intros (w & Hw & Hc). unfold HC._match_emotion_precisely. cbv zeta.
  set (m := str_lower user_message) in *.
  destruct (contains (lit "anxious") m || contains (lit "anxiety") m) eqn:H1;
    [split; [in_list | reflexivity] |].
  destruct (contains (lit "sad") m || contains (lit "sadness") m
            || contains (lit "depressed") m) eqn:H2;
    [split; [in_list | reflexivity] |].
  destruct (contains (lit "angry") m || contains (lit "frustrated") m) eqn:H3;
    [split; [in_list | reflexivity] |].
  destruct (contains (lit "scared") m || contains (lit "afraid") m
            || contains (lit "fear") m) eqn:H4;
    [split; [in_list | reflexivity] |].
  destruct (contains (lit "happy") m || contains (lit "great") m
            || contains (lit "excited") m) eqn:H5;
    [split; [in_list | reflexivity] |].
  exfalso.
  repeat match goal with
         | H : _ || _ = false |- _ => apply orb_false_iff in H; destruct H
         end.
  unfold emotion_triggers in Hw.
  repeat (destruct Hw as [<- | Hw]; [congruence |]). exact Hw.
Qed.

(** X28. The emotion label the orchestrator settles on is never empty. When
    one of the trigger words occurs in the lowered message, the label is one
    of the five canonical ones and does not depend on what the classifier
    answered; when none occurs, it is the classifier's label, or "neutral" for
    an empty one. *)
Theorem match_emotion_precisely_label (detected user_message : str) :
  HC._match_emotion_precisely detected user_message <> [] /\
  ((exists w, In w emotion_triggers /\
              contains (lit w) (str_lower user_message) = true) ->
   In (HC._match_emotion_precisely detected user_message)
      (map lit ["anxiety"; "sadness"; "anger"; "fear"; "joy"]%string) /\
   forall detected',
     HC._match_emotion_precisely detected' user_message =
     HC._match_emotion_precisely detected user_message) /\
  ((forall w, In w emotion_triggers ->
              contains (lit w) (str_lower user_message) = false) ->
   HC._match_emotion_precisely detected user_message =
   match detected with
   | [] => lit "neutral"
   | _ => detected
   end).
Proof.
  assert (Hcases :
    (exists w, In w emotion_triggers /\
               contains (lit w) (str_lower user_message) = true) \/
    (forall w, In w emotion_triggers ->
               contains (lit w) (str_lower user_message) = false)).
  { destruct (existsb (fun w => contains (lit w) (str_lower user_message))
                emotion_triggers) eqn:He.
    - left. apply existsb_exists in He. exact He.
    - right. intros w Hw. apply not_true_iff_false. intros Hc.
      assert (Hex : existsb (fun w => contains (lit w) (str_lower user_message))
                      emotion_triggers = true).
      { apply existsb_exists. eauto. }
      rewrite Hex in He. discriminate. }
  split; [| split].
  - destruct Hcases as [Hex | Hnone].
    + destruct (match_emotion_trigger detected user_message Hex) as [Hin _].
      intros Heq. rewrite Heq in Hin. cbn in Hin.
      repeat (destruct Hin as [Hin | Hin]; [discriminate |]). exact Hin.
    + rewrite (match_emotion_no_trigger detected user_message Hnone).
      destruct detected; discriminate.
  - intros Hex.
    destruct (match_emotion_trigger detected user_message Hex) as [Hin Heq].
    split; [exact Hin |]. intros detected'.
    destruct (match_emotion_trigger detected' user_message Hex) as [_ Heq'].
    rewrite Heq, Heq'. reflexivity.
  - apply match_emotion_no_trigger.
Qed.

End TopicAndEmotion.

Lemma extract_topic_first_match_witness :
  @HC._extract_topic ascii_runtime
    (lit "I have severe anxiety about my job interview") = lit "job".
Proof.
  apply (proj1 (@extract_topic_first_match ascii_runtime
                  (lit "I have severe anxiety about my job interview"))
           [("exam", ["exam"; "test"; "quiz"; "midterm"; "final"; "exam score";
                      "studied"])]%string
           ("job", ["job"; "work"; "interview"; "boss"; "colleague"; "promotion";
                    "fired"; "resign"; "workplace"])%string
           (tl (tl HC.topic_keywords)) eq_refl).
  - intros e [<- | []]. vm_compute. reflexivity.
  - vm_compute. reflexivity.
Defined.

Lemma match_emotion_precisely_label_witness :
  (exists w, In w emotion_triggers /\
     contains (lit w) (@str_lower ascii_runtime (lit "I am so Frustrated")) = true) /\
  @HC._match_emotion_precisely ascii_runtime (lit "joy") (lit "I am so Frustrated") =
  @HC._match_emotion_precisely ascii_runtime (lit "sadness") (lit "I am so Frustrated").
Proof.
  assert (Hex : exists w, In w emotion_triggers /\
     contains (lit w) (@str_lower ascii_runtime (lit "I am so Frustrated")) = true).
  { exists "frustrated"%string. split; [in_list | vm_compute; reflexivity]. }
  split; [exact Hex |].
  exact (proj2 (proj1 (proj2 (@match_emotion_precisely_label ascii_runtime
                                (lit "sadness") (lit "I am so Frustrated")))
                 Hex) (lit "joy")).
Defined.

(** ** The emotion classifier *)

Section Classifier.
Context {rt : PyRuntime} {pl : EmotionClassifier.Pipeline}.
Import EmotionClassifier.

Lemma classifier_keywords_subset :
  forall k, In k crisis_keywords -> In k hf_config.CRISIS_KEYWORDS.
Proof.
  assert (Hall : forallb (fun k => bool_decide (k ∈ hf_config.CRISIS_KEYWORDS))
                   crisis_keywords = true) by (vm_compute; reflexivity).
  rewrite forallb_forall in Hall. intros k Hk.
  apply list_elem_of_In. exact (bool_decide_eq_true_1 _ (Hall k Hk)).
Qed.

Lemma classify_emotion_is_crisis (text : str) :
  emotion_classifier.is_crisis (classify_emotion text) = true ->
  exists k, In k crisis_keywords /\ contains k (str_lower text) = true.
Proof.
  unfold classify_emotion.
  destruct classifier as [run |]; [| discriminate].
  destruct (run (take 512 text)) as [[| [| primary others] rest] |];
    try discriminate.
  cbn [emotion_classifier.is_crisis]. intros Hex.
  apply existsb_exists in Hex. exact Hex.
Qed.

(** When the classifier is missing, raises, or returns no prediction,
    [classify_emotion] answers with the default result (neutral, confidence 0,
    no crisis), whatever the text says. Otherwise the primary emotion is the
    label of the first prediction, the ranked list has one entry per
    prediction in the order given, and the crisis flag is set exactly when the
    lowered text, at its full length, contains one of the classifier's
    keywords; the model itself sees the first 512 characters only. *)
Theorem classify_emotion_cases (text : str) :
  (classifier = None -> classify_emotion text = _default_emotion) /\
  (forall run, classifier = Some run ->
     (run (take 512 text) = None \/ run (take 512 text) = Some [] \/
      exists rest, run (take 512 text) = Some ([] :: rest)) ->
     classify_emotion text = _default_emotion) /\
  (forall run primary others rest,
     classifier = Some run ->
     run (take 512 text) = Some ((primary :: others) :: rest) ->
     let r := classify_emotion text in
     emotion_classifier.primary_emotion r = label primary /\
     emotion_classifier.confidence r = round3 (score primary) /\
     map fst (emotion_classifier.all_emotions r) = map label (primary :: others) /\
     (emotion_classifier.is_crisis r = true <->
      exists k, In k crisis_keywords /\ contains k (str_lower text) = true)) /\
  emotion_classifier.is_crisis _default_emotion = false.
Proof.
  unfold classify_emotion. split; [| split; [| split; [| reflexivity]]].
  - intros ->. reflexivity.
  - intros run -> [-> | [-> | [rest ->]]]; reflexivity.
  - intros run primary others rest -> ->. cbv zeta.
    cbn [emotion_classifier.primary_emotion emotion_classifier.confidence
         emotion_classifier.all_emotions emotion_classifier.is_crisis].
    split; [reflexivity |]. split; [reflexivity |].
    split; [| apply existsb_exists].
    rewrite map_map. reflexivity.
Qed.

(** X29. Whenever the classifier flags a crisis, the crisis handler decides
    for one on the same message, so an orchestrator built on this classifier
    escalates: its not reading the classifier's flag loses nothing. *)
Theorem classifier_crisis_implies_escalation {sc : Scorers}
    (generate : str -> str -> str -> str) (db : UM.database)
    (now_analysis now_user now_turn user_id user_message : str) :
  emotion_classifier.is_crisis (classify_emotion user_message) = true ->
  (forall score,
     (crisis_handler.detect_crisis crisis_handler.CrisisHandler_init
        user_message score).1.1 = true) /\
  escalates
    (@HC.process_user_message rt sc (models_of generate)
       (HC.HybridMentalHealthChatbot_init db) now_analysis now_user now_turn
       user_id user_message).1.2 = true.
Proof.
  intros Hflag.
  apply classify_emotion_is_crisis in Hflag as (k & Hk & Hc).
  apply classifier_keywords_subset in Hk.
  assert (Hdet : forall score,
    (crisis_handler.detect_crisis crisis_handler.CrisisHandler_init
       user_message score).1.1 = true).
  { intros score. apply (proj2 (detect_crisis_iff_keyword_aux user_message score)).
    eauto. }
  split; [exact Hdet |].
  rewrite (@process_user_message_spec rt sc (models_of generate)).
  cbv zeta. cbn [fst snd HC.response escalates HC.the_crisis_handler
                 HC.HybridMentalHealthChatbot_init].
  rewrite Hdet. reflexivity.
Qed.

End Classifier.

Lemma classify_emotion_cases_witness :
  emotion_classifier.primary_emotion
    (@EmotionClassifier.classify_emotion ascii_runtime example_pipeline
       (lit "I am scared")) = lit "fear".
Proof.
  exact (proj1 (proj1 (proj2 (proj2 (@classify_emotion_cases ascii_runtime
                                       example_pipeline (lit "I am scared"))))
                 _ _ _ _ eq_refl eq_refl)).
Defined.

Lemma classifier_crisis_implies_escalation_witness :
  emotion_classifier.is_crisis
    (@EmotionClassifier.classify_emotion ascii_runtime example_pipeline
       (lit "I might JUMP")) = true /\
  escalates
    (@HC.process_user_message ascii_runtime example_scorers
       (@models_of ascii_runtime example_pipeline (fun m _ _ => m))
       (HC.HybridMentalHealthChatbot_init UM.empty_database)
       (lit "t1") (lit "t2") (lit "t3") (lit "u1") (lit "I might JUMP")).1.2 = true.
Proof.
  assert (Hflag : emotion_classifier.is_crisis
    (@EmotionClassifier.classify_emotion ascii_runtime example_pipeline
       (lit "I might JUMP")) = true) by (vm_compute; reflexivity).
  split; [exact Hflag |].
  exact (proj2 (@classifier_crisis_implies_escalation ascii_runtime
                  example_pipeline example_scorers (fun m _ _ => m)
                  UM.empty_database (lit "t1") (lit "t2") (lit "t3") (lit "u1")
                  (lit "I might JUMP") Hflag)).
Defined.

(** ** Removing repeated sentences *)

Section RemoveRepetition.
Context {rt : PyRuntime}.
Import T5ResponseGenerator.








End RemoveRepetition.


Example remove_repetition_drops_repeat :
  @T5ResponseGenerator._remove_repetition ascii_runtime
    (lit "I hear you. That is hard.  I hear you. That is hard") =
  lit "I hear you. That is hard.".
Proof. vm_compute. reflexivity. Qed.
